(** * PRDResearchAgents: the tools, the agent graph and the event renderer
      of [main.py]

    The script declares three agents (research, write, review) over a shared
    state store, four tool functions, and a loop that prints the events of a
    run.  This development embeds the parts of [main.py] that are the script's
    own: the values and mappings it manipulates, the tool functions as
    computations over the state store and the console, the agent and workflow
    declarations, the credential check at import time and the renderer.

    Conventions.
    - A text is the [string] of its UTF-8 bytes, as the literals of this file
      are.  A Python character is a code point: one lead byte and the
      continuation bytes after it.  Lengths and slices count code points.
    - [repr()] of a text is Python's own and is taken as a parameter,
      [repr_text]; [str()] and [repr()] of the other values are built on it.
    - A Python [dict] with text keys is an association list in insertion
      order, which is the order [str()] shows.
    - The model's completion call is a parameter, [acomplete].
    - Lines 34 and 37 of [main.py] write one name with a space inside it, so
      the file as it stands does not compile; the import is modelled as it
      fails, and the functions and declarations as the file defines them. *)

From Stdlib Require Import String Ascii List ZArith Lia Bool PeanoNat.
From Stdlib Require Import DecimalString.
Import ListNotations.
Open Scope string_scope.
Set Warnings "-register-all".

(* ===================================================================== *)
(** ** Python values *)
(* ===================================================================== *)

Module Py.

(** The values the script handles.  [VObj] is an instance of a library class
    (a [ToolOutput], say), given by the text of its [__str__] and of its
    [__repr__]. *)
Inductive pyval : Type :=
| VNone
| VBool (b : bool)
| VInt (z : Z)
| VStr (s : string)
| VList (items : list pyval)
| VDict (entries : list (string * pyval))
| VObj (str_text repr_text : string).

Definition dict := list (string * pyval).

(** Exceptions raised by the modelled code. *)
Inductive exn : Type :=
| KeyError (key : string)
| TypeError
| ValueError (msg : string).

Inductive result (A : Type) : Type :=
| Ok (a : A)
| Raise (e : exn).
Arguments Ok {A} a.
Arguments Raise {A} e.

(** *** Mappings with text keys *)

Fixpoint assoc_get {V : Type} (d : list (string * V)) (k : string) : option V :=
  match d with
  | [] => None
  | (k', v) :: rest => if String.eqb k' k then Some v else assoc_get rest k
  end.

(** [d[k] = v]: a present key keeps its place, a new key goes last. *)
Fixpoint assoc_set {V : Type} (d : list (string * V)) (k : string) (v : V)
  : list (string * V) :=
  match d with
  | [] => [(k, v)]
  | (k', v') :: rest =>
      if String.eqb k' k then (k, v) :: rest else (k', v') :: assoc_set rest k v
  end.

Definition dict_get : dict -> string -> option pyval := assoc_get.
Definition dict_set : dict -> string -> pyval -> dict := assoc_set.

(** [needle in hay] on text. *)
Fixpoint contains_str (needle hay : string) : bool :=
  String.prefix needle hay ||
  match hay with
  | EmptyString => false
  | String _ rest => contains_str needle rest
  end.

(** [v[k]] for a text key [k]. *)
Definition py_getitem (v : pyval) (k : string) : result pyval :=
  match v with
  | VDict d =>
      match dict_get d k with
      | Some x => Ok x
      | None => Raise (KeyError k)
      end
  | _ => Raise TypeError
  end.

(** [k in v] for a text key [k]. *)
Definition py_contains (v : pyval) (k : string) : result bool :=
  match v with
  | VDict d => Ok (match dict_get d k with Some _ => true | None => false end)
  | VStr s => Ok (contains_str k s)
  | VList items =>
      Ok (existsb (fun x => match x with VStr s => String.eqb s k | _ => false end)
                  items)
  | _ => Raise TypeError
  end.

(** [v[k] = x] for a text key [k]; the result is the object after the
    assignment. *)
Definition py_setitem (v : pyval) (k : string) (x : pyval) : result pyval :=
  match v with
  | VDict d => Ok (VDict (dict_set d k x))
  | _ => Raise TypeError
  end.

(** The expression [v[p1][p2]...[pn]]. *)
Fixpoint eval_path (v : pyval) (path : list string) : result pyval :=
  match path with
  | [] => Ok v
  | p :: ps =>
      match py_getitem v p with
      | Ok inner => eval_path inner ps
      | Raise e => Raise e
      end
  end.

(** The statement [v[p1]...[pn][k] = x].  The subscripts yield references,
    so the assignment shows in the enclosing objects as well. *)
Fixpoint assign_path (v : pyval) (path : list string) (k : string) (x : pyval)
  : result pyval :=
  match path with
  | [] => py_setitem v k x
  | p :: ps =>
      match py_getitem v p with
      | Raise e => Raise e
      | Ok inner =>
          match assign_path inner ps k x with
          | Raise e => Raise e
          | Ok inner' => py_setitem v p inner'
          end
      end
  end.

(** *** [str()] and [repr()] *)

Definition nl : string := String (ascii_of_nat 10) EmptyString.

Definition has_char (c : ascii) (s : string) : bool :=
  existsb (Ascii.eqb c) (list_ascii_of_string s).

Definition str_int (z : Z) : string := NilZero.string_of_int (Z.to_int z).

Section Repr.

(** [repr()] of a text. *)
Variable repr_text : string -> string.

Fixpoint py_repr (v : pyval) : string :=
  match v with
  | VNone => "None"
  | VBool true => "True"
  | VBool false => "False"
  | VInt z => str_int z
  | VStr s => repr_text s
  | VList items => "[" ++ String.concat ", " (map py_repr items) ++ "]"
  | VDict d =>
      "{" ++ String.concat ", "
               (map (fun kv => repr_text (fst kv) ++ ": " ++ py_repr (snd kv)) d)
          ++ "}"
  | VObj _ r => r
  end.

Definition py_str (v : pyval) : string :=
  match v with
  | VStr s => s
  | VObj s _ => s
  | _ => py_repr v
  end.

End Repr.

(** A continuation byte of a code point: [10xxxxxx]. *)
Definition is_continuation (c : ascii) : bool :=
  Nat.leb 128 (nat_of_ascii c) && Nat.ltb (nat_of_ascii c) 192.

(** [len(s)]: the code points of the text, one per byte that is not a
    continuation byte. *)
Fixpoint py_len (s : string) : nat :=
  match s with
  | EmptyString => 0
  | String c rest =>
      if is_continuation c then py_len rest else S (py_len rest)
  end.

(** The slice [s[:n]]: the first [n] code points, each with all its bytes. *)
Fixpoint slice_to (n : nat) (s : string) : string :=
  match s with
  | EmptyString => EmptyString
  | String c rest =>
      if is_continuation c then String c (slice_to n rest)
      else
        match n with
        | O => EmptyString
        | S m => String c (slice_to m rest)
        end
  end.

(** The text starts at a code point, not inside one. *)
Definition starts_at_character (s : string) : bool :=
  match s with
  | EmptyString => true
  | String c _ => negb (is_continuation c)
  end.

(** Truth value of an optional text ([None] and the empty text are false). *)
Definition truthy (o : option string) : bool :=
  match o with
  | Some (String _ _) => true
  | _ => false
  end.

(** ['c' * n] *)
Fixpoint repeat_char (c : ascii) (n : nat) : string :=
  match n with
  | O => EmptyString
  | S m => String c (repeat_char c m)
  end.

End Py.
Import Py.

(* ===================================================================== *)
(** ** The state store, the console and the effects of the script *)
(* ===================================================================== *)

Module Eff.

(** What the script reads and writes while it runs.
    - [store]: the object the context's store holds; the shared state of the
      agents is its entry ["state"].
    - [writes]: the store after each item assignment so far, oldest first.
    - [commits]: the store at the close of each scoped edit so far.
    - [stdout]: the text of each [print] call so far, without the line end. *)
Record World : Type := mkWorld {
  store : pyval;
  writes : list pyval;
  commits : list pyval;
  stdout : list string
}.

(** A computation may change the world and either returns or raises; what it
    changed before raising stays changed, as with objects updated in place. *)
Definition M (A : Type) : Type := World -> result A * World.

Definition ret {A : Type} (a : A) : M A := fun w => (Ok a, w).

Definition bind {A B : Type} (c : M A) (k : A -> M B) : M B :=
  fun w =>
    match c w with
    | (Ok a, w') => k a w'
    | (Raise e, w') => (Raise e, w')
    end.

Definition raise {A : Type} (e : exn) : M A := fun w => (Raise e, w).

Definition lift {A : Type} (r : result A) : M A := fun w => (r, w).

Notation "x <- c ;; k" := (bind c (fun x => k))
  (at level 61, c at next level, right associativity).
Notation "c ;; k" := (bind c (fun _ => k))
  (at level 61, right associativity).

(** [print(a1, ..., an)] for arguments that are texts, joined by a space;
    a caller with another value passes its [str()]. *)
Definition print (args : list string) : M unit :=
  fun w =>
    (Ok tt,
     mkWorld (store w) (writes w) (commits w)
             (stdout w ++ [String.concat " " args])).

(** [k in ctx_state[p1]...[pn]] *)
Definition contains (path : list string) (k : string) : M bool :=
  fun w =>
    match eval_path (store w) path with
    | Ok v => (py_contains v k, w)
    | Raise e => (Raise e, w)
    end.

(** [ctx_state[p1]...[pn][k] = x] *)
Definition assign (path : list string) (k : string) (x : pyval) : M unit :=
  fun w =>
    match assign_path (store w) path k x with
    | Ok s' => (Ok tt, mkWorld s' (writes w ++ [s']) (commits w) (stdout w))
    | Raise e => (Raise e, w)
    end.

(** Modelled from the spec: [ctx.store.edit_state()], the library's scoped
    edit.  The body works on the store itself with exclusive access, and the
    store as it stands when the scope closes is what the next reader sees. *)
Definition edit_state {A : Type} (body : M A) : M A :=
  fun w =>
    let (r, w') := body w in
    (r, mkWorld (store w') (writes w') (commits w' ++ [store w']) (stdout w')).

(** Modelled from the spec: [ctx.store.get(key)], a read of one entry of the
    store. *)
Definition store_get (key : string) : M pyval :=
  fun w => (py_getitem (store w) key, w).

End Eff.
Import Eff.

(* ===================================================================== *)
(** ** The tool functions (section 4 of [main.py]) *)
(* ===================================================================== *)

Module Tools.

(** [search_web]; [acomplete] is the completion call of the search-enabled
    model, which answers or fails. *)
Definition search_web (repr_text : string -> string)
           (acomplete : string -> result pyval) (query : string)
  : M string :=
  print ["--- Performing web search for: '" ++ query ++ "' ---"] ;;
  response <- lift (acomplete
     ("Please research given this query or topic, and return the result" ++ nl
      ++ "<query_or_topic>" ++ query ++ "</query_or_topic>")) ;;
  ret (py_str repr_text response).

Definition record_notes (notes notes_title : string) : M string :=
  print ["--- Recording notes titled: '" ++ notes_title ++ "' ---"] ;;
  edit_state
    (present <- contains ["state"] "research_notes" ;;
     (if negb present
      then assign ["state"] "research_notes" (VDict [])
      else ret tt) ;;
     assign ["state"; "research_notes"] notes_title (VStr notes)) ;;
  ret "Notes recorded.".

Definition write_report (report_content : string) : M string :=
  print ["--- Writing report ---"] ;;
  edit_state (assign ["state"] "report_content" (VStr report_content)) ;;
  ret "Report written.".

Definition review_report (review : string) : M string :=
  print ["--- Reviewing report ---"] ;;
  edit_state (assign ["state"] "review" (VStr review)) ;;
  ret "Report reviewed.".

(** A call of one of the three tools that write the state. *)
Inductive call : Type :=
| CallRecordNotes (notes notes_title : string)
| CallWriteReport (report_content : string)
| CallReviewReport (review : string).

Definition run_call (c : call) : M string :=
  match c with
  | CallRecordNotes notes notes_title => record_notes notes notes_title
  | CallWriteReport report_content => write_report report_content
  | CallReviewReport review => review_report review
  end.

(** The calls of a list one after the other; the first that raises ends the
    sequence.  The result lists what the calls returned. *)
Fixpoint run_calls (cs : list call) : M (list string) :=
  match cs with
  | [] => ret []
  | c :: rest =>
      r <- run_call c ;;
      rs <- run_calls rest ;;
      ret (r :: rs)
  end.

End Tools.
Import Tools.

(* ===================================================================== *)
(** ** The agents and the workflow (sections 3, 5 and 6 of [main.py]) *)
(* ===================================================================== *)

Module Agents.

(** A configured model: its name and whether it carries the search tool. *)
Record GoogleGenAI : Type := mkLLM {
  model : string;
  with_search_tool : bool
}.

Definition llm : GoogleGenAI := mkLLM "gemini-2.5-pro" false.
Definition llm_with_search : GoogleGenAI := mkLLM "gemini-2.5-pro" true.

Record FunctionAgent : Type := mkAgent {
  name : string;
  description : string;
  system_prompt : string;
  agent_llm : GoogleGenAI;
  tools : list string;
  can_handoff_to : list string
}.

Definition research_agent : FunctionAgent := {|
  name := "ResearchAgent";
  description := "Useful for searching the web for information and recording notes.";
  system_prompt :=
    "Your ONLY job is to research topics using your tools and record detailed notes. "
    ++ "You MUST NOT write the final report. You are forbidden from generating final content. "
    ++ "First, use your tools to find information. Second, record that information as notes. "
    ++ "Once you have sufficient notes, you MUST hand off control to the 'WriteAgent'.";
  agent_llm := llm;
  tools := ["search_web"; "record_notes"];
  can_handoff_to := ["WriteAgent"]
|}.

Definition write_agent : FunctionAgent := {|
  name := "WriteAgent";
  description := "Useful for writing a report on a given topic.";
  system_prompt :=
    "You are the WriteAgent. Your job is to write a report in markdown format "
    ++ "based *only* on the provided research notes. Once done, hand off to the ReviewAgent.";
  agent_llm := llm;
  tools := ["write_report"];
  can_handoff_to := ["ReviewAgent"; "ResearchAgent"]
|}.

Definition review_agent : FunctionAgent := {|
  name := "ReviewAgent";
  description := "Useful for reviewing a report and providing feedback.";
  system_prompt :=
    "You are the ReviewAgent. Review the report and provide feedback. "
    ++ "Approve it or request changes and hand off back to the WriteAgent if necessary.";
  agent_llm := llm;
  tools := ["review_report"];
  can_handoff_to := ["ResearchAgent"; "WriteAgent"]
|}.

Record AgentWorkflow : Type := mkWorkflow {
  agents : list FunctionAgent;
  root_agent : string;
  initial_state : dict
}.

Definition agent_workflow : AgentWorkflow := {|
  agents := [research_agent; write_agent; review_agent];
  root_agent := name research_agent;
  initial_state :=
    [("research_notes", VDict []);
     ("report_content", VStr "Not written yet.");
     ("review", VStr "Review required.")]
|}.

Definition find_agent (wf : AgentWorkflow) (n : string) : option FunctionAgent :=
  find (fun a => String.eqb (name a) n) (agents wf).

(** The handoffs a workflow declares: from an agent of the workflow to a name
    in that agent's [can_handoff_to]. *)
Definition may_handoff (wf : AgentWorkflow) (src dst : string) : bool :=
  match find_agent wf src with
  | Some a => existsb (String.eqb dst) (can_handoff_to a)
  | None => false
  end.

(** Modelled from the spec: the runner has one active agent at a time, the
    root agent first, and a handoff moves control to a name in the active
    agent's declared handoff set. *)
Inductive active (wf : AgentWorkflow) : string -> Prop :=
| active_root : active wf (root_agent wf)
| active_handoff (src dst : string) :
    active wf src -> may_handoff wf src dst = true -> active wf dst.

(** Modelled from the spec: [run] starts a run whose store holds the
    workflow's initial state under ["state"]; nothing is printed yet and no
    tool has run. *)
Definition run_start (wf : AgentWorkflow) : World :=
  mkWorld (VDict [("state", VDict (initial_state wf))]) [] [] [].

(** The worlds a run reaches by tool calls from its start. *)
Inductive reached (wf : AgentWorkflow) : World -> Prop :=
| reached_start : reached wf (run_start wf)
| reached_call (w : World) (c : call) :
    reached wf w -> reached wf (snd (run_call c w)).

End Agents.
Import Agents.

(* ===================================================================== *)
(** ** Import of the module (sections 2, 3, 5 and 6 of [main.py]) *)
(* ===================================================================== *)

Module Startup.

Definition environ := list (string * string).

(** [os.getenv] *)
Definition getenv (env : environ) (key : string) : option string :=
  assoc_get env key.

(** What the module does at import, in order, besides binding names. *)
Inductive action : Type :=
| LoadDotenv
| ConfigureLLM (m : GoogleGenAI)
| BuildSearchTool
| BuildAgent (agent_name : string)
| BuildWorkflow (root : string).

Definition missing_key_message : string :=
  "GOOGLE_API_KEY not found. Please create a .env file and set your API key.".

(** A top-level statement [target = Callee(keyword=..., ...)]: the line it
    starts on, the name it binds, the keyword names of the call, the names
    its arguments mention, and what running it does. *)
Record Binding : Type := mkBinding {
  first_line : nat;
  target : string;
  keywords : list string;
  mentions : list string;
  effect : action
}.

(** The binding statements of [main.py] after the key check, with the names
    spelled as the file spells them. *)
Definition module_bindings : list Binding :=
  [mkBinding 30 "llm" ["model"] [] (ConfigureLLM llm);
   mkBinding 34 "Google Search_tool" ["Google Search"] ["google_types"]
             BuildSearchTool;
   mkBinding 35 "llm_with_search" ["model"; "generation_config"; "tools"]
             ["google_types"; "Google Search_tool"]
             (ConfigureLLM llm_with_search);
   mkBinding 77 "research_agent"
             ["name"; "description"; "system_prompt"; "llm"; "tools";
              "can_handoff_to"]
             ["llm"; "search_web"; "record_notes"]
             (BuildAgent (name research_agent));
   mkBinding 91 "write_agent"
             ["name"; "description"; "system_prompt"; "llm"; "tools";
              "can_handoff_to"]
             ["llm"; "write_report"]
             (BuildAgent (name write_agent));
   mkBinding 103 "review_agent"
             ["name"; "description"; "system_prompt"; "llm"; "tools";
              "can_handoff_to"]
             ["llm"; "review_report"]
             (BuildAgent (name review_agent));
   mkBinding 116 "agent_workflow" ["agents"; "root_agent"; "initial_state"]
             ["research_agent"; "write_agent"; "review_agent"]
             (BuildWorkflow (root_agent agent_workflow))].

(** A name is one token: it is not empty and has no space in it. *)
Definition is_one_name (s : string) : bool :=
  match s with
  | EmptyString => false
  | String _ _ => negb (has_char " "%char s)
  end.

(** The statement can be read as a binding: every name in it is one name. *)
Definition parses (b : Binding) : bool :=
  forallb is_one_name (target b :: keywords b ++ mentions b)%list.

(** The line of the first statement that cannot be read. *)
Definition syntax_error : option nat :=
  option_map first_line (find (fun b => negb (parses b)) module_bindings).

(** How an import ends. *)
Inductive outcome : Type :=
| SyntaxError (line : nat)
| Raised (e : exn)
| Imported (wf : AgentWorkflow).

Section ModuleBody.

(** [load_dotenv()] of python-dotenv, as its effect on the environment. *)
Variable load_dotenv : environ -> environ.

(** The statements of the module in order, as they run once the file has
    compiled: the dotenv file, the key check, the bindings. *)
Definition run_module (os_environ : environ) : list action * outcome :=
  let env := load_dotenv os_environ in
  if negb (truthy (getenv env "GOOGLE_API_KEY"))
  then ([LoadDotenv], Raised (ValueError missing_key_message))
  else (LoadDotenv :: map effect module_bindings, Imported agent_workflow).

(** The import: the file is compiled whole before its first statement runs,
    and a statement that cannot be read stops it there. *)
Definition import_module (os_environ : environ) : list action * outcome :=
  match syntax_error with
  | Some line => ([], SyntaxError line)
  | None => run_module os_environ
  end.

End ModuleBody.

(** The actions that configure a model, build the workflow or may reach the
    network (the model constructors and everything after them). *)
Definition touches_llm_or_workflow (a : action) : bool :=
  match a with
  | LoadDotenv => false
  | _ => true
  end.

End Startup.
Import Startup.

(* ===================================================================== *)
(** ** The event loop and [run_workflow] (section 7 of [main.py]) *)
(* ===================================================================== *)

Section Console.

(** [repr()] of a text, and the completion call of the search-enabled
    model. *)
Variable repr_text : string -> string.
Variable acomplete : string -> result pyval.

(** A lemma depends on these two only when its statement does. *)
Set Default Proof Using "Type".

Record ToolSelection : Type := mkSelection {
  tool_id : string;
  tool_name : string;
  tool_kwargs : dict
}.

(** The events of the library's agent workflow, with the attributes the loop
    reads.  [AgentInput], [AgentStream] and [AgentOutput] carry a
    [current_agent_name]; [ToolCall] and [ToolCallResult] do not. *)
Inductive Event : Type :=
| AgentInput (current_agent_name : string)
| AgentStream (delta : string) (current_agent_name : string)
| AgentOutput (response_content : option string)
              (tool_calls : list ToolSelection)
              (current_agent_name : string)
| ToolCallResult (name : string) (kwargs : dict) (tool_output : pyval)
| ToolCall (name : string) (kwargs : dict)
| StopEvent.

(** [getattr(event, "current_agent_name")] where [hasattr] holds. *)
Definition agent_name_of (event : Event) : option string :=
  match event with
  | AgentInput n => Some n
  | AgentStream _ n => Some n
  | AgentOutput _ _ n => Some n
  | _ => None
  end.

(** [name != current_agent], where [current_agent] starts as [None]. *)
Definition differs (n : string) (current_agent : option string) : bool :=
  match current_agent with
  | Some c => negb (String.eqb n c)
  | None => true
  end.

Definition banner (agent : string) : string :=
  nl ++ repeat_char "="%char 50 ++ nl ++ "🤖 Agent: " ++ agent ++ nl
     ++ repeat_char "="%char 50 ++ nl.

Definition output_label : string := "📤 Output:".
Definition planning_label : string := "🛠️ Planning to use tools:".

(** The [elif] branches of the loop body, taken when the banner branch is
    not. *)
Definition render_body (event : Event) : M unit :=
  match event with
  | AgentOutput response_content tool_calls _ =>
      (if truthy response_content
       then print [output_label;
                   py_str repr_text
                     match response_content with Some s => VStr s | None => VNone end]
       else ret tt) ;;
      (if negb (Nat.eqb (length tool_calls) 0)
       then print [planning_label;
                   py_str repr_text
                     (VList (map (fun c => VStr (tool_name c)) tool_calls))]
       else ret tt)
  | ToolCallResult name _ tool_output =>
      print ["🔧 Tool Result (" ++ name ++ "):"] ;;
      print ["    Output: " ++ slice_to 300 (py_str repr_text tool_output) ++ "..."]
  | ToolCall name kwargs =>
      if negb (contains_str "handoff" name)
      then print ["🔨 Calling Tool: " ++ name] ;;
           print ["    With arguments: " ++ py_str repr_text (VDict kwargs)]
      else ret tt
  | _ => ret tt
  end.

(** One round of the loop: the event is rendered and the tracked agent
    returned. *)
Definition render_event (current_agent : option string) (event : Event)
  : M (option string) :=
  match agent_name_of event with
  | Some n =>
      if differs n current_agent
      then print [banner n] ;; ret (Some n)
      else render_body event ;; ret current_agent
  | None => render_body event ;; ret current_agent
  end.

(** The loop over events already streamed, with nothing else going on. *)
Fixpoint render_events (current_agent : option string) (events : list Event)
  : M (option string) :=
  match events with
  | [] => ret current_agent
  | event :: rest =>
      current_agent' <- render_event current_agent event ;;
      render_events current_agent' rest
  end.

(** The lines after the loop (lines 157 to 163): the final report and the
    final review, read from the store. *)
Definition closing_section : M unit :=
  print [nl ++ "--- ✅ Workflow Complete ---"] ;;
  state <- store_get "state" ;;
  print [nl ++ "--- Final Report Content ---" ++ nl] ;;
  report <- lift (py_getitem state "report_content") ;;
  print [py_str repr_text report] ;;
  print [nl ++ "----------------------------" ++ nl] ;;
  print [nl ++ "--- Final Review ---" ++ nl] ;;
  review <- lift (py_getitem state "review") ;;
  print [py_str repr_text review].

(** The loop and the closing section over a stream already recorded, on the
    store as it stands: lines 138 to 163 with no tool running meanwhile. *)
Definition render_and_close (stream_events : list Event) : M unit :=
  render_events None stream_events ;;
  closing_section.

(** Modelled from the spec: what goes on, in order, between the start of a
    run and the end of its stream.  The runner executes the tools the agents
    call, which print and write as they run, and emits events, which the
    loop renders as they arrive; a failure inside the runner (a model call
    that raises) ends the stream with that exception. *)
Inductive RunItem : Type :=
| Emit (event : Event)
| Exec (c : call)
| Search (query : string)
| Fail (e : exn).

Definition client_requirements : string :=
  nl ++ "Write a Product Requirement Document (PRD) for a mobile application for a real-time translation service."
  ++ nl ++ "The PRD should cover key features like voice-to-text, text-to-speech, and offline mode."
  ++ nl ++ "Start by researching best practices for a user-friendly interface in a translation app."
  ++ nl.

(** Modelled from the spec: [wf.run(user_msg=...)] starts a run on a store
    of its own that holds the workflow's initial state; what the message
    leads the agents to do is the run itself. *)
Definition start_run (wf : AgentWorkflow) (user_msg : string) : M unit :=
  fun w => (Ok tt, mkWorld (store (run_start wf)) [] [] (stdout w)).

(** The loop while the run goes on: events are rendered, tools run in
    between, and the first exception ends it. *)
Fixpoint live_loop (current_agent : option string) (run : list RunItem)
  : M (option string) :=
  match run with
  | [] => ret current_agent
  | Emit event :: rest =>
      current_agent' <- render_event current_agent event ;;
      live_loop current_agent' rest
  | Exec c :: rest =>
      run_call c ;; live_loop current_agent rest
  | Search query :: rest =>
      search_web repr_text acomplete query ;; live_loop current_agent rest
  | Fail e :: rest => raise e
  end.

(** [run_workflow]: the run is started, its stream rendered while it goes
    on, and the final report and review printed. *)
Definition run_workflow (run : list RunItem) : M unit :=
  start_run agent_workflow client_requirements ;;
  live_loop None run ;;
  closing_section.


(* ===================================================================== *)
(** ** Observations used in the statements *)
(* ===================================================================== *)

(** [ctx_state["state"][key]], as a reader of the store evaluates it. *)
Definition state_field (w : World) (key : string) : result pyval :=
  eval_path (store w) ["state"; key].

(** [ctx_state["state"]["research_notes"][title]] *)
Definition note_at (w : World) (title : string) : result pyval :=
  eval_path (store w) ["state"; "research_notes"; title].

(** The store holds a state mapping. *)
Definition has_state (w : World) : bool :=
  match eval_path (store w) ["state"] with
  | Ok (VDict _) => true
  | _ => false
  end.

(** The store holds a state mapping whose ["research_notes"], when present,
    is a mapping: the shape of the state in the data model. *)
Definition notes_ready (w : World) : bool :=
  match eval_path (store w) ["state"] with
  | Ok (VDict st) =>
      match dict_get st "research_notes" with
      | None => true
      | Some (VDict _) => true
      | Some _ => false
      end
  | _ => false
  end.

(** The store holds a state mapping without the key ["research_notes"]. *)
Definition notes_absent (w : World) : bool :=
  match eval_path (store w) ["state"] with
  | Ok (VDict st) =>
      match dict_get st "research_notes" with
      | None => true
      | Some _ => false
      end
  | _ => false
  end.

(** Two subscript paths part ways at some position. *)
Fixpoint diverges (p q : list string) : bool :=
  match p, q with
  | a :: p', b :: q' => if String.eqb a b then diverges p' q' else true
  | _, _ => false
  end.

(** What a computation adds to the console when run from [w]. *)
Definition printed_by {A : Type} (c : M A) (w : World) : list string :=
  skipn (length (stdout w)) (stdout (snd (c w))).

(** The line [print("... Output:", content)] writes. *)
Definition output_line (content : string) : string :=
  output_label ++ " " ++ content.

(** The line [print("... Planning to use tools:", [names])] writes. *)
Definition planning_line (calls : list ToolSelection) : string :=
  planning_label ++ " "
  ++ py_repr repr_text (VList (map (fun c => VStr (tool_name c)) calls)).

(** The loop shows an agent-output event: its text when that is not empty,
    and the names of its planned tools when there are any. *)
Definition renders_agent_output (current_agent : option string) (e : Event)
           (w : World) : Prop :=
  match e with
  | AgentOutput response_content tool_calls _ =>
      (forall s, response_content = Some s -> s <> "" ->
                 In (output_line s) (printed_by (render_event current_agent e) w)) /\
      (tool_calls <> [] ->
       In (planning_line tool_calls) (printed_by (render_event current_agent e) w))
  | _ => True
  end.

(** The lines of the agent-output branch of the loop. *)
Definition agent_output_lines (response_content : option string)
           (tool_calls : list ToolSelection) : list string :=
  (match response_content with
   | Some (String c s) => [output_line (String c s)]
   | _ => []
   end ++
   match tool_calls with
   | [] => []
   | _ :: _ => [planning_line tool_calls]
   end)%list.

(** The handoff edges of the three agents. *)
Definition handoff_edges : list (string * string) :=
  [("ResearchAgent", "WriteAgent");
   ("WriteAgent", "ReviewAgent");
   ("WriteAgent", "ResearchAgent");
   ("ReviewAgent", "ResearchAgent");
   ("ReviewAgent", "WriteAgent")].

Definition agent_names : list string :=
  ["ResearchAgent"; "WriteAgent"; "ReviewAgent"].

(** *** The tool calls, by what they return, print and write *)

(** The text a tool call returns when it returns. *)
Definition confirmation (c : call) : string :=
  match c with
  | CallRecordNotes _ _ => "Notes recorded."
  | CallWriteReport _ => "Report written."
  | CallReviewReport _ => "Report reviewed."
  end.

(** The name of the function a call runs, as the agents list it in [tools]. *)
Definition tool_of_call (c : call) : string :=
  match c with
  | CallRecordNotes _ _ => "record_notes"
  | CallWriteReport _ => "write_report"
  | CallReviewReport _ => "review_report"
  end.

(** The line a tool call prints before it edits the state. *)
Definition tool_line (c : call) : string :=
  match c with
  | CallRecordNotes _ notes_title =>
      "--- Recording notes titled: '" ++ notes_title ++ "' ---"
  | CallWriteReport _ => "--- Writing report ---"
  | CallReviewReport _ => "--- Reviewing report ---"
  end.

(** The call records a note under [title]. *)
Definition writes_note (title : string) (c : call) : bool :=
  match c with
  | CallRecordNotes _ notes_title => String.eqb notes_title title
  | _ => false
  end.

(** The prompt [search_web] sends for a query, and the line it prints. *)
Definition search_prompt (query : string) : string :=
  "Please research given this query or topic, and return the result" ++ nl
  ++ "<query_or_topic>" ++ query ++ "</query_or_topic>".

Definition search_line (query : string) : string :=
  "--- Performing web search for: '" ++ query ++ "' ---".

(** *** The event loop, by what it prints and tracks *)

(** The lines of the branches after the banner test, event by event. *)
Definition body_lines (e : Event) : list string :=
  match e with
  | AgentOutput response_content tool_calls _ =>
      agent_output_lines response_content tool_calls
  | ToolCallResult name _ tool_output =>
      [("🔧 Tool Result (" ++ name ++ "):")%string;
       ("    Output: " ++ slice_to 300 (py_str repr_text tool_output) ++ "...")%string]
  | ToolCall name kwargs =>
      if contains_str "handoff" name then []
      else [("🔨 Calling Tool: " ++ name)%string;
            ("    With arguments: " ++ py_str repr_text (VDict kwargs))%string]
  | _ => []
  end.

(** The agent the loop tracks after an event, and after a stream. *)
Definition next_agent (current_agent : option string) (e : Event)
  : option string :=
  match agent_name_of e with
  | Some n => Some n
  | None => current_agent
  end.

Fixpoint last_agent (current_agent : option string) (events : list Event)
  : option string :=
  match events with
  | [] => current_agent
  | e :: rest => last_agent (next_agent current_agent e) rest
  end.

(** The lines one round of the loop prints. *)
Definition event_lines (current_agent : option string) (e : Event)
  : list string :=
  match agent_name_of e with
  | Some n => if differs n current_agent then [banner n] else body_lines e
  | None => body_lines e
  end.

(** The lines the loop prints for a stream. *)
Fixpoint stream_lines (current_agent : option string) (events : list Event)
  : list string :=
  match events with
  | [] => []
  | e :: rest =>
      (event_lines current_agent e
       ++ stream_lines (next_agent current_agent e) rest)%list
  end.

(** The lines of the closing section, for a final report and review. *)
Definition closing_lines (report review : pyval) : list string :=
  [(nl ++ "--- ✅ Workflow Complete ---")%string;
   (nl ++ "--- Final Report Content ---" ++ nl)%string;
   py_str repr_text report;
   (nl ++ "----------------------------" ++ nl)%string;
   (nl ++ "--- Final Review ---" ++ nl)%string;
   py_str repr_text review].

(** *** A run as it goes on *)

(** Modelled from the spec: in the stream of a run, the output of an agent
    comes after an event that names that agent (the runner emits the agent's
    input before it asks the model), so the agent of an agent-output event is
    the agent the stream named last. *)
Fixpoint follows_runner (current_agent : option string) (events : list Event)
  : bool :=
  match events with
  | [] => true
  | e :: rest =>
      match e with
      | AgentOutput _ _ n => negb (differs n current_agent)
      | _ => true
      end
      && follows_runner (next_agent current_agent e) rest
  end.

(** The tool calls of a run, in the order the runner executes them. *)
Fixpoint calls_of (run : list RunItem) : list call :=
  match run with
  | [] => []
  | Exec c :: rest => c :: calls_of rest
  | _ :: rest => calls_of rest
  end.

(** No model call of the run fails: there is no failure in the runner and
    every search is answered. *)
Definition run_completes (run : list RunItem) : bool :=
  forallb (fun item =>
             match item with
             | Fail _ => false
             | Search query =>
                 match acomplete (search_prompt query) with
                 | Ok _ => true
                 | Raise _ => false
                 end
             | _ => true
             end) run.

(** The lines that reach the console while the run goes on: the loop's for
    an event, the tool's own for a tool that runs. *)
Fixpoint live_lines (current_agent : option string) (run : list RunItem)
  : list string :=
  match run with
  | [] => []
  | Emit e :: rest =>
      (event_lines current_agent e
       ++ live_lines (next_agent current_agent e) rest)%list
  | Exec c :: rest => tool_line c :: live_lines current_agent rest
  | Search query :: rest => search_line query :: live_lines current_agent rest
  | Fail _ :: _ => []
  end.

(** *** The handoff graph *)

(** A chain of declared handoffs from one agent to another. *)
Inductive handoff_path (wf : AgentWorkflow) : string -> string -> Prop :=
| path_here (a : string) : handoff_path wf a a
| path_step (a b c : string) :
    may_handoff wf a b = true -> handoff_path wf b c -> handoff_path wf a c.

(** Proof steps shared below: a tool unfolded down to its assignments, and
    the handoff tables unfolded down to the name tests. *)
Ltac run_tool :=
  cbv beta iota delta
    [record_notes write_report review_report run_call
     bind ret print edit_state assign contains];
  cbn [store writes commits stdout fst snd].

Ltac unfold_handoff :=
  cbn [may_handoff find_agent find agents agent_workflow name can_handoff_to
       research_agent write_agent review_agent existsb orb].

Ltac pick_name E :=
  apply String.eqb_eq in E; subst; intros _; simpl; tauto.

(* ===================================================================== *)
(** ** Mappings and subscript paths *)
(* ===================================================================== *)

Section PathLemmas.

Lemma dict_get_set_same (d : dict) (k : string) (v : pyval) :
  dict_get (dict_set d k v) k = Some v.
Proof.
  unfold dict_get, dict_set.
  induction d as [|[k' v'] rest IH]; simpl.
  - now rewrite String.eqb_refl.
  - destruct (String.eqb k' k) eqn:E; simpl.
    + now rewrite String.eqb_refl.
    + now rewrite E.
Qed.

Lemma dict_get_set_other (d : dict) (k k' : string) (v : pyval) :
  k <> k' -> dict_get (dict_set d k v) k' = dict_get d k'.
Proof.
  intros Hne. unfold dict_get, dict_set.
  induction d as [|[k0 v0] rest IH]; simpl.
  - destruct (String.eqb k k') eqn:E; [|reflexivity].
    apply String.eqb_eq in E. contradiction.
  - destruct (String.eqb k0 k) eqn:E; simpl.
    + apply String.eqb_eq in E. subst k0.
      destruct (String.eqb k k') eqn:E'; [|reflexivity].
      apply String.eqb_eq in E'. contradiction.
    + destruct (String.eqb k0 k'); [reflexivity | exact IH].
Qed.

Lemma py_getitem_ok (v x : pyval) (k : string) :
  py_getitem v k = Ok x ->
  exists d, v = VDict d /\ dict_get d k = Some x.
Proof.
  destruct v; simpl; try discriminate.
  intros H. exists entries. split; [reflexivity|].
  destruct (dict_get entries k); [now inversion H | discriminate].
Qed.

Lemma py_setitem_ok (v v' x : pyval) (k : string) :
  py_setitem v k x = Ok v' ->
  exists d, v = VDict d /\ v' = VDict (dict_set d k x).
Proof.
  destruct v; simpl; try discriminate.
  intros H. inversion H. now exists entries.
Qed.

(** Reading back the item just assigned gives the assigned value. *)
Lemma assign_path_read (path : list string) :
  forall (v v' x : pyval) (k : string),
    assign_path v path k x = Ok v' ->
    eval_path v' (path ++ [k]) = Ok x.
Proof.
  induction path as [|p ps IH]; intros v v' x k H; simpl in *.
  - apply py_setitem_ok in H. destruct H as (d & -> & ->). simpl.
    now rewrite dict_get_set_same.
  - destruct (py_getitem v p) as [inner|] eqn:G; [|discriminate].
    destruct (assign_path inner ps k x) as [inner'|] eqn:A; [|discriminate].
    apply py_setitem_ok in H. destruct H as (d & -> & ->). simpl.
    rewrite dict_get_set_same. eapply IH. exact A.
Qed.

(** An assignment leaves alone what a path that parts ways with it reads. *)
Lemma assign_path_frame (path : list string) :
  forall (v v' x : pyval) (k : string) (q : list string),
    assign_path v path k x = Ok v' ->
    diverges (path ++ [k]) q = true ->
    eval_path v' q = eval_path v q.
Proof.
  induction path as [|p ps IH]; intros v v' x k q H D; simpl in *.
  - destruct q as [|b q']; [discriminate|].
    destruct (String.eqb k b) eqn:E; [discriminate|].
    apply String.eqb_neq in E.
    apply py_setitem_ok in H. destruct H as (d & -> & ->). simpl.
    now rewrite dict_get_set_other.
  - destruct q as [|b q']; [discriminate|].
    destruct (py_getitem v p) as [inner|] eqn:G; [|discriminate].
    destruct (assign_path inner ps k x) as [inner'|] eqn:A; [|discriminate].
    apply py_setitem_ok in H. destruct H as (d & -> & ->).
    apply py_getitem_ok in G. destruct G as (d0 & Hd & G). inversion Hd; subst d0.
    destruct (String.eqb p b) eqn:E.
    + apply String.eqb_eq in E. subst b. simpl.
      rewrite dict_get_set_same, G. eapply IH; eassumption.
    + apply String.eqb_neq in E. simpl.
      now rewrite dict_get_set_other.
Qed.

(** Assigning into a mapping that the path reaches does not raise. *)
Lemma assign_path_ok (path : list string) :
  forall (v x : pyval) (k : string) (d : dict),
    eval_path v path = Ok (VDict d) ->
    exists v', assign_path v path k x = Ok v'.
Proof.
  induction path as [|p ps IH]; intros v x k d H; simpl in *.
  - inversion H. subst v. simpl. eauto.
  - destruct (py_getitem v p) as [inner|] eqn:G; [|discriminate].
    destruct (IH inner x k d H) as (inner' & A). rewrite A.
    apply py_getitem_ok in G. destruct G as (d0 & -> & _). simpl. eauto.
Qed.

Lemma eval_path_app (p q : list string) :
  forall v : pyval,
    eval_path v (p ++ q) =
    match eval_path v p with
    | Ok inner => eval_path inner q
    | Raise e => Raise e
    end.
Proof.
  induction p as [|a p IH]; intros v; simpl; [reflexivity|].
  destruct (py_getitem v a); [apply IH | reflexivity].
Qed.

End PathLemmas.

(* ===================================================================== *)
(** ** The tools, step by step *)
(* ===================================================================== *)

Lemma has_state_inv (w : World) :
  has_state w = true ->
  exists st, eval_path (store w) ["state"] = Ok (VDict st).
Proof.
  unfold has_state.
  destruct (eval_path (store w) ["state"]) as [v|]; [|discriminate].
  destruct v; try discriminate. eauto.
Qed.

Lemma notes_ready_inv (w : World) :
  notes_ready w = true ->
  exists st,
    eval_path (store w) ["state"] = Ok (VDict st) /\
    (dict_get st "research_notes" = None \/
     exists rn, dict_get st "research_notes" = Some (VDict rn)).
Proof.
  unfold notes_ready.
  destruct (eval_path (store w) ["state"]) as [v|]; [|discriminate].
  destruct v; try discriminate.
  destruct (dict_get entries "research_notes") as [x|] eqn:G.
  - destruct x; try discriminate. intros _. exists entries. eauto.
  - intros _. exists entries. eauto.
Qed.

Lemma notes_ready_has_state (w : World) :
  notes_ready w = true -> has_state w = true.
Proof.
  intros R. destruct (notes_ready_inv w R) as (st & S & _).
  unfold has_state. now rewrite S.
Qed.

(** A store in which a note can be read holds a well-shaped state. *)
Lemma note_read_ready (s x : pyval) (t : string) (ws cs : list pyval)
      (out : list string) :
  eval_path s ["state"; "research_notes"; t] = Ok x ->
  notes_ready (mkWorld s ws cs out) = true.
Proof.
  unfold notes_ready. simpl.
  destruct (py_getitem s "state") as [st|]; [|discriminate].
  destruct (py_getitem st "research_notes") as [rn|] eqn:G; [|discriminate].
  intros H.
  apply py_getitem_ok in G. destruct G as (d & -> & G). rewrite G.
  destruct rn; simpl in H; try discriminate. reflexivity.
Qed.

(** What [eval_path] reads below ["state"] from the state mapping. *)
Lemma eval_state_sub (s : pyval) (st : dict) (q : list string) :
  eval_path s ["state"] = Ok (VDict st) ->
  eval_path s ("state" :: q) = eval_path (VDict st) q.
Proof.
  simpl. destruct (py_getitem s "state"); [|discriminate].
  intros H. now inversion H.
Qed.

(** [write_report] and [review_report] as one assignment. *)
Lemma write_report_eq (report_content : string) (w : World) :
  write_report report_content w =
  match assign_path (store w) ["state"] "report_content" (VStr report_content) with
  | Ok s' =>
      (Ok "Report written.",
       mkWorld s' (writes w ++ [s']) (commits w ++ [s'])
               (stdout w ++ ["--- Writing report ---"]))
  | Raise e =>
      (Raise e,
       mkWorld (store w) (writes w) (commits w ++ [store w])
               (stdout w ++ ["--- Writing report ---"]))
  end.
Proof.
  destruct w as [s ws cs out]. run_tool.
  destruct (assign_path s ["state"] "report_content" (VStr report_content));
    reflexivity.
Qed.

Lemma review_report_eq (review : string) (w : World) :
  review_report review w =
  match assign_path (store w) ["state"] "review" (VStr review) with
  | Ok s' =>
      (Ok "Report reviewed.",
       mkWorld s' (writes w ++ [s']) (commits w ++ [s'])
               (stdout w ++ ["--- Reviewing report ---"]))
  | Raise e =>
      (Raise e,
       mkWorld (store w) (writes w) (commits w ++ [store w])
               (stdout w ++ ["--- Reviewing report ---"]))
  end.
Proof.
  destruct w as [s ws cs out]. run_tool.
  destruct (assign_path s ["state"] "review" (VStr review));
    reflexivity.
Qed.

(** [record_notes], by the statements it goes through. *)
Lemma record_notes_eq (notes notes_title : string) (w : World) :
  let out :=
    (stdout w ++ [("--- Recording notes titled: '" ++ notes_title ++ "' ---")%string])%list in
  let insert (s : pyval) (ws : list pyval) :=
    match assign_path s ["state"; "research_notes"] notes_title (VStr notes) with
    | Ok s' => (Ok "Notes recorded.", mkWorld s' (ws ++ [s']) (commits w ++ [s']) out)
    | Raise e => (Raise e, mkWorld s ws (commits w ++ [s]) out)
    end in
  let stop (e : exn) : result string * World :=
    (Raise e, mkWorld (store w) (writes w) (commits w ++ [store w]) out) in
  record_notes notes notes_title w =
  match eval_path (store w) ["state"] with
  | Raise e => stop e
  | Ok v =>
      match py_contains v "research_notes" with
      | Raise e => stop e
      | Ok true => insert (store w) (writes w)
      | Ok false =>
          match assign_path (store w) ["state"] "research_notes" (VDict []) with
          | Raise e => stop e
          | Ok s1 => insert s1 (writes w ++ [s1])%list
          end
      end
  end.
Proof.
  intros out insert stop. subst out insert stop.
  destruct w as [s ws cs o]. run_tool.
  destruct (eval_path s ["state"]) as [v|]; [|reflexivity].
  destruct (py_contains v "research_notes") as [[|]|];
    cbn [negb store writes commits stdout]; try reflexivity.
  - destruct (assign_path s ["state"; "research_notes"] notes_title (VStr notes));
      reflexivity.
  - destruct (assign_path s ["state"] "research_notes" (VDict [])) as [s1|];
      cbn [store writes commits stdout]; [|reflexivity].
    destruct (assign_path s1 ["state"; "research_notes"] notes_title (VStr notes));
      reflexivity.
Qed.

Lemma diverges_app (p r : list string) :
  forall q : list string,
    diverges p q = true -> diverges (p ++ r) q = true.
Proof.
  induction p as [|a p IH]; intros q D; simpl in *; [discriminate|].
  destruct q as [|b q]; [discriminate|].
  destruct (String.eqb a b); [now apply IH | reflexivity].
Qed.

(** After an assignment the container holds the old entries with the item
    set. *)
Lemma assign_path_container (path : list string) :
  forall (v v' x : pyval) (k : string) (d : dict),
    assign_path v path k x = Ok v' ->
    eval_path v path = Ok (VDict d) ->
    eval_path v' path = Ok (VDict (dict_set d k x)).
Proof.
  induction path as [|p ps IH]; intros v v' x k d H E; simpl in *.
  - inversion E. subst v. simpl in H. now inversion H.
  - destruct (py_getitem v p) as [inner|] eqn:G; [|discriminate].
    destruct (assign_path inner ps k x) as [inner'|] eqn:A; [|discriminate].
    apply py_setitem_ok in H. destruct H as (d0 & -> & ->). simpl.
    rewrite dict_get_set_same. eapply IH; eassumption.
Qed.

(** On a well-shaped state [record_notes] returns, keeps the shape and
    stores the note. *)
Lemma record_notes_ok (notes notes_title : string) (w : World) :
  notes_ready w = true ->
  exists w',
    record_notes notes notes_title w = (Ok "Notes recorded.", w') /\
    notes_ready w' = true /\
    note_at w' notes_title = Ok (VStr notes).
Proof.
  intros R. destruct (notes_ready_inv w R) as (st & S & G).
  rewrite record_notes_eq. cbv zeta. rewrite S. simpl py_contains.
  destruct G as [G | (rn & G)]; rewrite G.
  - destruct (assign_path_ok ["state"] (store w) (VDict []) "research_notes" st S)
      as (s1 & A1).
    rewrite A1.
    pose proof (assign_path_read _ _ _ _ _ A1) as R1. simpl app in R1.
    destruct (assign_path_ok ["state"; "research_notes"] s1 (VStr notes)
                notes_title [] R1) as (s2 & A2).
    rewrite A2.
    pose proof (assign_path_read _ _ _ _ _ A2) as R2. simpl app in R2.
    eexists. split; [reflexivity|]. split.
    + eapply note_read_ready. exact R2.
    + exact R2.
  - assert (E : eval_path (store w) ["state"; "research_notes"] = Ok (VDict rn)).
    { rewrite (eval_state_sub _ st) by exact S. simpl. now rewrite G. }
    destruct (assign_path_ok ["state"; "research_notes"] (store w) (VStr notes)
                notes_title rn E) as (s2 & A2).
    rewrite A2.
    pose proof (assign_path_read _ _ _ _ _ A2) as R2. simpl app in R2.
    eexists. split; [reflexivity|]. split.
    + eapply note_read_ready. exact R2.
    + exact R2.
Qed.

(** On a store with a state, a field writer returns, and reading the field
    back gives the argument. *)
Lemma write_report_ok (report_content : string) (w : World) :
  has_state w = true ->
  exists s',
    assign_path (store w) ["state"] "report_content" (VStr report_content) = Ok s' /\
    write_report report_content w =
      (Ok "Report written.",
       mkWorld s' (writes w ++ [s']) (commits w ++ [s'])
               (stdout w ++ ["--- Writing report ---"])).
Proof.
  intros H. destruct (has_state_inv w H) as (st & S).
  destruct (assign_path_ok ["state"] (store w) (VStr report_content)
              "report_content" st S) as (s' & A).
  exists s'. split; [exact A|]. rewrite write_report_eq. now rewrite A.
Qed.

Lemma review_report_ok (review : string) (w : World) :
  has_state w = true ->
  exists s',
    assign_path (store w) ["state"] "review" (VStr review) = Ok s' /\
    review_report review w =
      (Ok "Report reviewed.",
       mkWorld s' (writes w ++ [s']) (commits w ++ [s'])
               (stdout w ++ ["--- Reviewing report ---"])).
Proof.
  intros H. destruct (has_state_inv w H) as (st & S).
  destruct (assign_path_ok ["state"] (store w) (VStr review) "review" st S)
    as (s' & A).
  exists s'. split; [exact A|]. rewrite review_report_eq. now rewrite A.
Qed.

(** What a tool leaves alone, whether it returns or raises. *)
Lemma write_report_frame (report_content : string) (w : World) (q : list string) :
  diverges ["state"; "report_content"] q = true ->
  eval_path (store (snd (write_report report_content w))) q = eval_path (store w) q.
Proof.
  intros D. rewrite write_report_eq.
  destruct (assign_path (store w) ["state"] "report_content" (VStr report_content))
    as [s'|] eqn:A; simpl; [|reflexivity].
  eapply assign_path_frame; [exact A | exact D].
Qed.

Lemma review_report_frame (review : string) (w : World) (q : list string) :
  diverges ["state"; "review"] q = true ->
  eval_path (store (snd (review_report review w))) q = eval_path (store w) q.
Proof.
  intros D. rewrite review_report_eq.
  destruct (assign_path (store w) ["state"] "review" (VStr review))
    as [s'|] eqn:A; simpl; [|reflexivity].
  eapply assign_path_frame; [exact A | exact D].
Qed.

Lemma record_notes_frame (notes notes_title : string) (w : World) (q : list string) :
  diverges ["state"; "research_notes"] q = true ->
  eval_path (store (snd (record_notes notes notes_title w))) q = eval_path (store w) q.
Proof.
  intros D.
  assert (D' : diverges (["state"; "research_notes"] ++ [notes_title]) q = true)
    by (now apply diverges_app).
  rewrite record_notes_eq. cbv zeta.
  destruct (eval_path (store w) ["state"]) as [v|]; [|reflexivity].
  destruct (py_contains v "research_notes") as [[|]|]; [| |reflexivity].
  - destruct (assign_path (store w) ["state"; "research_notes"] notes_title (VStr notes))
      as [s'|] eqn:A; simpl; [|reflexivity].
    eapply assign_path_frame; [exact A | exact D'].
  - destruct (assign_path (store w) ["state"] "research_notes" (VDict []))
      as [s1|] eqn:A1; [|reflexivity].
    assert (F1 : eval_path s1 q = eval_path (store w) q)
      by (eapply assign_path_frame; [exact A1 | exact D]).
    destruct (assign_path s1 ["state"; "research_notes"] notes_title (VStr notes))
      as [s'|] eqn:A; simpl; [|exact F1].
    rewrite <- F1. eapply assign_path_frame; [exact A | exact D'].
Qed.

(** A field writer other than the notes keeps the shape of the state. *)
Lemma field_write_ready (s s' x : pyval) (k : string)
      (ws ws' cs cs' : list pyval) (out out' : list string) :
  k <> "research_notes" ->
  assign_path s ["state"] k x = Ok s' ->
  notes_ready (mkWorld s ws cs out) = true ->
  notes_ready (mkWorld s' ws' cs' out') = true.
Proof.
  intros Hk A R.
  destruct (notes_ready_inv _ R) as (st & S & G). cbn [store] in S.
  pose proof (assign_path_container _ _ _ _ _ _ A S) as S'.
  unfold notes_ready. cbn [store]. rewrite S'.
  rewrite dict_get_set_other by exact Hk.
  destruct G as [G | (rn & G)]; now rewrite G.
Qed.

(** Every tool call on a well-shaped state returns and keeps the shape. *)
Lemma run_call_ok (c : call) (w : World) :
  notes_ready w = true ->
  exists r w', run_call c w = (Ok r, w') /\ notes_ready w' = true.
Proof.
  intros R. destruct c as [notes notes_title | report_content | review]; simpl.
  - destruct (record_notes_ok notes notes_title w R) as (w' & E & R' & _).
    eauto.
  - destruct (write_report_ok report_content w (notes_ready_has_state w R))
      as (s' & A & E).
    rewrite E. do 2 eexists. split; [reflexivity|].
    destruct w as [s ws cs out]. cbn [store] in A.
    eapply field_write_ready; [|exact A|exact R]. discriminate.
  - destruct (review_report_ok review w (notes_ready_has_state w R))
      as (s' & A & E).
    rewrite E. do 2 eexists. split; [reflexivity|].
    destruct w as [s ws cs out]. cbn [store] in A.
    eapply field_write_ready; [|exact A|exact R]. discriminate.
Qed.

(** The state of a run keeps its shape, whatever tools were called. *)
Lemma reached_notes_ready (w : World) :
  reached agent_workflow w -> notes_ready w = true.
Proof.
  induction 1 as [|w c _ IH]; [reflexivity|].
  destruct (run_call_ok c w IH) as (r & w' & E & R). now rewrite E.
Qed.

Lemma run_calls_cons (c : call) (rest : list call) (w w1 w2 : World)
      (r : string) (rs : list string) :
  run_call c w = (Ok r, w1) ->
  run_calls rest w1 = (Ok rs, w2) ->
  run_calls (c :: rest) w = (Ok (r :: rs), w2).
Proof.
  intros E1 E2. simpl. unfold bind, ret. now rewrite E1, E2.
Qed.

(* ===================================================================== *)
(** ** The state store and the tools: the properties *)
(* ===================================================================== *)

(** C1. Calls of [record_notes] that share one title, run one after the other
    from a store whose state has the shape of the data model, all return
    (with the confirmation text), and the note then stored under the title is
    the [notes] argument of the last call. *)
Theorem record_notes_last_write_wins
        (w : World) (notes_title : string) (earlier : list string) (last : string) :
  notes_ready w = true ->
  exists w',
    run_calls (map (fun n => CallRecordNotes n notes_title) (earlier ++ [last])) w
      = (Ok (map (fun _ => "Notes recorded.") (earlier ++ [last])), w') /\
    note_at w' notes_title = Ok (VStr last).
Proof.
  revert w. induction earlier as [|n earlier IH]; intros w R.
  - destruct (record_notes_ok last notes_title w R) as (w' & E & _ & N).
    exists w'. split; [|exact N].
    simpl app. simpl map. eapply run_calls_cons; [exact E | reflexivity].
  - destruct (record_notes_ok n notes_title w R) as (w1 & E & R1 & _).
    destruct (IH w1 R1) as (w' & E' & N).
    exists w'. split; [|exact N].
    simpl app. simpl map. eapply run_calls_cons; [exact E | exact E'].
Qed.

Lemma record_notes_last_write_wins_witness :
  notes_ready (run_start agent_workflow) = true /\
  exists w',
    run_calls [CallRecordNotes "draft" "UX best practices";
               CallRecordNotes "Notes" "UX best practices"]
              (run_start agent_workflow)
      = (Ok ["Notes recorded."; "Notes recorded."], w') /\
    note_at w' "UX best practices" = Ok (VStr "Notes").
Proof.
  split; [reflexivity|].
  apply (record_notes_last_write_wins (run_start agent_workflow)
           "UX best practices" ["draft"] "Notes").
  reflexivity.
Defined.

(** C2. At the start of a run, before any tool has run, the state in the
    store is the declared initial state: ["research_notes"] is the empty
    mapping, ["report_content"] is "Not written yet." and ["review"] is
    "Review required.". *)
Theorem initial_state_defaults :
  eval_path (store (run_start agent_workflow)) ["state"]
    = Ok (VDict (initial_state agent_workflow)) /\
  writes (run_start agent_workflow) = [] /\
  commits (run_start agent_workflow) = [] /\
  state_field (run_start agent_workflow) "research_notes" = Ok (VDict []) /\
  state_field (run_start agent_workflow) "report_content"
    = Ok (VStr "Not written yet.") /\
  state_field (run_start agent_workflow) "review" = Ok (VStr "Review required.") /\
  length (initial_state agent_workflow) = 3.
Proof.
  repeat split.
Qed.

(** C3. On a store that holds a state, [write_report] returns and leaves
    ["report_content"] equal to its argument, and [review_report] returns and
    leaves ["review"] equal to its argument.  The store takes one new value
    during the call, at the single assignment and at the close of the scoped
    edit alike, and that value already carries the whole argument. *)
Theorem write_and_review_overwrite
        (w : World) (report_content review : string) :
  has_state w = true ->
  (let w' := snd (write_report report_content w) in
   fst (write_report report_content w) = Ok "Report written." /\
   state_field w' "report_content" = Ok (VStr report_content) /\
   writes w' = (writes w ++ [store w'])%list /\
   commits w' = (commits w ++ [store w'])%list) /\
  (let w' := snd (review_report review w) in
   fst (review_report review w) = Ok "Report reviewed." /\
   state_field w' "review" = Ok (VStr review) /\
   writes w' = (writes w ++ [store w'])%list /\
   commits w' = (commits w ++ [store w'])%list).
Proof.
  intros H. split; cbv zeta.
  - destruct (write_report_ok report_content w H) as (s' & A & E).
    rewrite E. cbn [fst snd store writes commits]. repeat split.
    unfold state_field. cbn [store].
    exact (assign_path_read _ _ _ _ _ A).
  - destruct (review_report_ok review w H) as (s' & A & E).
    rewrite E. cbn [fst snd store writes commits]. repeat split.
    unfold state_field. cbn [store].
    exact (assign_path_read _ _ _ _ _ A).
Qed.

Lemma write_and_review_overwrite_witness :
  has_state (run_start agent_workflow) = true /\
  state_field (snd (write_report "# PRD" (run_start agent_workflow))) "report_content"
    = Ok (VStr "# PRD") /\
  state_field (snd (review_report "Approved." (run_start agent_workflow))) "review"
    = Ok (VStr "Approved.").
Proof.
  split; [reflexivity|].
  pose proof (write_and_review_overwrite (run_start agent_workflow)
                "# PRD" "Approved." eq_refl) as [(_ & Hw & _) (_ & Hr & _)].
  split; [exact Hw | exact Hr].
Defined.

(** A writing tool that returns at all returns its confirmation text. *)
Lemma tools_return_nothing_else
      (w : World) (notes notes_title report_content review r : string) :
  (fst (record_notes notes notes_title w) = Ok r -> r = "Notes recorded.") /\
  (fst (write_report report_content w) = Ok r -> r = "Report written.") /\
  (fst (review_report review w) = Ok r -> r = "Report reviewed.").
Proof.
  repeat split.
  - rewrite record_notes_eq. cbv zeta.
    destruct (eval_path (store w) ["state"]) as [v|]; [|discriminate].
    destruct (py_contains v "research_notes") as [[|]|]; [| |discriminate].
    + destruct (assign_path (store w) ["state"; "research_notes"] notes_title
                  (VStr notes)); simpl; [|discriminate].
      intros H. now inversion H.
    + destruct (assign_path (store w) ["state"] "research_notes" (VDict []))
        as [s1|]; [|discriminate].
      destruct (assign_path s1 ["state"; "research_notes"] notes_title
                  (VStr notes)); simpl; [|discriminate].
      intros H. now inversion H.
  - rewrite write_report_eq.
    destruct (assign_path (store w) ["state"] "report_content"
                (VStr report_content)); simpl; [|discriminate].
    intros H. now inversion H.
  - rewrite review_report_eq.
    destruct (assign_path (store w) ["state"] "review" (VStr review)); simpl;
      [|discriminate].
    intros H. now inversion H.
Qed.

(** C8. Each of the three writing tools returns its confirmation text,
    whatever its arguments and whatever the state holds: [record_notes]
    "Notes recorded." on every state whose ["research_notes"] is absent or a
    mapping, [write_report] "Report written." and [review_report]
    "Report reviewed." on every state. *)
Theorem tools_return_fixed_confirmation
        (w : World) (notes notes_title report_content review : string) :
  (notes_ready w = true ->
   fst (record_notes notes notes_title w) = Ok "Notes recorded.") /\
  (has_state w = true ->
   fst (write_report report_content w) = Ok "Report written." /\
   fst (review_report review w) = Ok "Report reviewed.").
Proof.
  split.
  - intros R.
    destruct (record_notes_ok notes notes_title w R) as (w' & E & _).
    now rewrite E.
  - intros H. split.
    + destruct (write_report_ok report_content w H) as (s' & _ & E).
      now rewrite E.
    + destruct (review_report_ok review w H) as (s' & _ & E).
      now rewrite E.
Qed.

Lemma tools_return_fixed_confirmation_witness :
  notes_ready (run_start agent_workflow) = true /\
  has_state (run_start agent_workflow) = true /\
  fst (record_notes "Notes" "UX best practices" (run_start agent_workflow))
    = Ok "Notes recorded." /\
  fst (write_report "# PRD" (run_start agent_workflow)) = Ok "Report written." /\
  fst (review_report "Approved." (run_start agent_workflow)) = Ok "Report reviewed.".
Proof.
  split; [reflexivity|]. split; [reflexivity|].
  destruct (tools_return_fixed_confirmation (run_start agent_workflow)
              "Notes" "UX best practices" "# PRD" "Approved.") as [Hn Hw].
  split; [exact (Hn eq_refl) | exact (Hw eq_refl)].
Defined.

Lemma notes_absent_inv (w : World) :
  notes_absent w = true ->
  exists st,
    eval_path (store w) ["state"] = Ok (VDict st) /\
    dict_get st "research_notes" = None.
Proof.
  unfold notes_absent.
  destruct (eval_path (store w) ["state"]) as [v|]; [|discriminate].
  destruct v; try discriminate.
  destruct (dict_get entries "research_notes") eqn:G; [discriminate|].
  intros _. exists entries. split; [reflexivity | exact G].
Qed.

(** C9. On a state without the key ["research_notes"], [record_notes] does
    not raise: it returns its confirmation, having first stored the empty
    mapping under ["research_notes"] and then the note in it, so that the
    mapping ends with that one entry. *)
Theorem record_notes_creates_missing_notes
        (w : World) (notes notes_title : string) :
  notes_absent w = true ->
  exists s1 w',
    record_notes notes notes_title w = (Ok "Notes recorded.", w') /\
    writes w' = (writes w ++ [s1; store w'])%list /\
    eval_path s1 ["state"; "research_notes"] = Ok (VDict []) /\
    state_field w' "research_notes" = Ok (VDict [(notes_title, VStr notes)]) /\
    note_at w' notes_title = Ok (VStr notes).
Proof.
  intros H. destruct (notes_absent_inv w H) as (st & S & G).
  rewrite record_notes_eq. cbv zeta. rewrite S. simpl py_contains. rewrite G.
  destruct (assign_path_ok ["state"] (store w) (VDict []) "research_notes" st S)
    as (s1 & A1).
  rewrite A1.
  pose proof (assign_path_read _ _ _ _ _ A1) as R1. simpl app in R1.
  destruct (assign_path_ok ["state"; "research_notes"] s1 (VStr notes)
              notes_title [] R1) as (s2 & A2).
  rewrite A2.
  exists s1. eexists. split; [reflexivity|].
  cbn [store writes]. split; [now rewrite <- app_assoc|].
  split; [exact R1|]. split.
  - exact (assign_path_container _ _ _ _ _ _ A2 R1).
  - exact (assign_path_read _ _ _ _ _ A2).
Qed.

Lemma record_notes_creates_missing_notes_witness :
  notes_absent
    (mkWorld (VDict [("state", VDict [("report_content", VStr "draft")])])
             [] [] []) = true /\
  exists s1 w',
    record_notes "Notes" "UX best practices"
      (mkWorld (VDict [("state", VDict [("report_content", VStr "draft")])])
               [] [] [])
      = (Ok "Notes recorded.", w') /\
    writes w' = [s1; store w'] /\
    eval_path s1 ["state"; "research_notes"] = Ok (VDict []) /\
    state_field w' "research_notes"
      = Ok (VDict [("UX best practices", VStr "Notes")]) /\
    note_at w' "UX best practices" = Ok (VStr "Notes").
Proof.
  split; [reflexivity|].
  apply (record_notes_creates_missing_notes
           (mkWorld (VDict [("state", VDict [("report_content", VStr "draft")])])
                    [] [] [])
           "Notes" "UX best practices").
  reflexivity.
Defined.

(** C10. Each writing tool leaves the other two fields of the state as they
    were, for every store and all arguments, whether the call returns or
    raises: [record_notes] leaves ["report_content"] and ["review"],
    [write_report] leaves ["research_notes"] and ["review"], and
    [review_report] leaves ["research_notes"] and ["report_content"]. *)
Theorem tools_write_only_their_field
        (w : World) (notes notes_title report_content review : string) :
  (state_field (snd (record_notes notes notes_title w)) "report_content"
     = state_field w "report_content" /\
   state_field (snd (record_notes notes notes_title w)) "review"
     = state_field w "review") /\
  (state_field (snd (write_report report_content w)) "research_notes"
     = state_field w "research_notes" /\
   state_field (snd (write_report report_content w)) "review"
     = state_field w "review") /\
  (state_field (snd (review_report review w)) "research_notes"
     = state_field w "research_notes" /\
   state_field (snd (review_report review w)) "report_content"
     = state_field w "report_content").
Proof.
  unfold state_field. repeat split.
  - now apply record_notes_frame.
  - now apply record_notes_frame.
  - now apply write_report_frame.
  - now apply write_report_frame.
  - now apply review_report_frame.
  - now apply review_report_frame.
Qed.

(* ===================================================================== *)
(** ** Import of the module *)
(* ===================================================================== *)

(** The check of lines 22 to 25, in the body as it would run: with the key
    absent or empty nothing but the dotenv file is loaded before
    [ValueError] is raised, and with a key the body goes on to the
    workflow. *)
Lemma key_check_guards_module_body
      (load_dotenv : environ -> environ) (os_environ : environ) :
  ((getenv (load_dotenv os_environ) "GOOGLE_API_KEY" = None \/
    getenv (load_dotenv os_environ) "GOOGLE_API_KEY" = Some "") ->
   run_module load_dotenv os_environ
     = ([LoadDotenv], Raised (ValueError missing_key_message))) /\
  (forall key,
     getenv (load_dotenv os_environ) "GOOGLE_API_KEY" = Some key ->
     key <> "" ->
     snd (run_module load_dotenv os_environ) = Imported agent_workflow).
Proof.
  unfold run_module. split.
  - intros [H | H]; rewrite H; reflexivity.
  - intros key H Hne. rewrite H.
    destruct key as [|c key]; [contradiction|]. reflexivity.
Qed.

(** C4, on the file as it stands.  The statement that starts on line 34
    binds a name written with a space in it, so the file does not compile:
    the import ends in [SyntaxError] at line 34 for every environment, with
    the key present as with the key absent, and before any statement has
    run, the dotenv load and the key check included. *)
Theorem import_stops_at_line_34
        (load_dotenv : environ -> environ) (os_environ : environ) :
  import_module load_dotenv os_environ = ([], SyntaxError 34) /\
  import_module (fun env => env) [("GOOGLE_API_KEY", "secret")]
    = ([], SyntaxError 34) /\
  snd (run_module (fun env => env) [("GOOGLE_API_KEY", "secret")])
    = Imported agent_workflow.
Proof.
  repeat split.
Qed.

(* ===================================================================== *)
(** ** The declared handoff graph *)
(* ===================================================================== *)

Lemma may_handoff_edges (src dst : string) :
  may_handoff agent_workflow src dst = true <-> In (src, dst) handoff_edges.
Proof.
  split.
  - unfold may_handoff, find_agent. unfold_handoff.
    destruct (String.eqb "ResearchAgent" src) eqn:E1.
    { apply String.eqb_eq in E1. subst src. unfold_handoff.
      destruct (String.eqb dst "WriteAgent") eqn:D; [pick_name D|discriminate]. }
    destruct (String.eqb "WriteAgent" src) eqn:E2.
    { apply String.eqb_eq in E2. subst src. unfold_handoff.
      destruct (String.eqb dst "ReviewAgent") eqn:D1; [pick_name D1|].
      destruct (String.eqb dst "ResearchAgent") eqn:D2; [pick_name D2|discriminate]. }
    destruct (String.eqb "ReviewAgent" src) eqn:E3; [|discriminate].
    apply String.eqb_eq in E3. subst src. unfold_handoff.
    destruct (String.eqb dst "ResearchAgent") eqn:D1; [pick_name D1|].
    destruct (String.eqb dst "WriteAgent") eqn:D2; [pick_name D2|discriminate].
  - simpl. intros [H|[H|[H|[H|[H|[]]]]]]; inversion H; reflexivity.
Qed.

Lemma edge_target_is_agent (src dst : string) :
  In (src, dst) handoff_edges -> In dst agent_names.
Proof.
  clear repr_text acomplete.
  simpl. intros [H|[H|[H|[H|[H|[]]]]]]; inversion H; simpl; tauto.
Qed.

(** C5. The workflow declares the agents ResearchAgent, WriteAgent and
    ReviewAgent with ResearchAgent as root; ResearchAgent may hand off to
    WriteAgent only, WriteAgent to ReviewAgent or ResearchAgent, ReviewAgent
    to ResearchAgent or WriteAgent; the declared handoffs are exactly those
    five edges, and a run that follows the declarations from the root only
    ever has one of the three agents active and only moves along those
    edges. *)
Theorem declared_handoff_graph :
  map name (agents agent_workflow) = agent_names /\
  root_agent agent_workflow = "ResearchAgent" /\
  option_map can_handoff_to (find_agent agent_workflow "ResearchAgent")
    = Some ["WriteAgent"] /\
  option_map can_handoff_to (find_agent agent_workflow "WriteAgent")
    = Some ["ReviewAgent"; "ResearchAgent"] /\
  option_map can_handoff_to (find_agent agent_workflow "ReviewAgent")
    = Some ["ResearchAgent"; "WriteAgent"] /\
  (forall src dst,
     may_handoff agent_workflow src dst = true <-> In (src, dst) handoff_edges) /\
  (forall a, active agent_workflow a -> In a agent_names) /\
  (forall src dst,
     active agent_workflow src ->
     may_handoff agent_workflow src dst = true ->
     In (src, dst) handoff_edges /\ active agent_workflow dst).
Proof.
  repeat (split; [reflexivity|]).
  split; [exact may_handoff_edges|]. split.
  - intros a H. induction H as [|src dst _ _ Hstep].
    + simpl. tauto.
    + apply may_handoff_edges in Hstep.
      exact (edge_target_is_agent src dst Hstep).
  - intros src dst Hact Hstep. split.
    + now apply may_handoff_edges.
    + exact (active_handoff agent_workflow src dst Hact Hstep).
Qed.

Lemma declared_handoff_graph_witness :
  active agent_workflow "WriteAgent" /\
  In ("WriteAgent", "ReviewAgent") handoff_edges /\
  active agent_workflow "ReviewAgent".
Proof.
  assert (Hw : active agent_workflow "WriteAgent").
  { exact (active_handoff agent_workflow "ResearchAgent" "WriteAgent"
             (active_root agent_workflow) eq_refl). }
  split; [exact Hw|].
  destruct declared_handoff_graph as (_ & _ & _ & _ & _ & _ & _ & Hstep).
  exact (Hstep "WriteAgent" "ReviewAgent" Hw eq_refl).
Defined.

(* ===================================================================== *)
(** ** The event loop *)
(* ===================================================================== *)

Lemma skipn_exact {A : Type} (l r : list A) :
  skipn (length l) (l ++ r) = r.
Proof.
  induction l as [|a l IH]; simpl; [reflexivity | exact IH].
Qed.

Lemma py_len_append (a b : string) :
  py_len (a ++ b) = py_len a + py_len b.
Proof.
  induction a as [|c a IH]; simpl; [reflexivity|].
  destruct (is_continuation c); rewrite IH; reflexivity.
Qed.

(** A slice has the code points asked for, or all there are. *)
Lemma length_slice_to (s : string) :
  forall n : nat, py_len (slice_to n s) = Nat.min n (py_len s).
Proof.
  induction s as [|c s IH]; intros n; cbn [slice_to py_len].
  - now rewrite Nat.min_0_r.
  - destruct (is_continuation c) eqn:E.
    + cbn [py_len]. rewrite E. apply IH.
    + destruct n as [|m]; [reflexivity|].
      cbn [py_len]. rewrite E, IH. reflexivity.
Qed.

(** A slice is a start of the text, and what it leaves out starts at a code
    point. *)
Lemma slice_to_prefix (s : string) :
  forall n : nat,
    exists rest, s = slice_to n s ++ rest /\ starts_at_character rest = true.
Proof.
  induction s as [|c s IH]; intros n; cbn [slice_to].
  - now exists "".
  - destruct (is_continuation c) eqn:E.
    + destruct (IH n) as (rest & H & B). exists rest.
      cbn [append]. split; [now rewrite <- H | exact B].
    + destruct n as [|m].
      * exists (String c s). cbn [append starts_at_character].
        now rewrite E.
      * destruct (IH m) as (rest & H & B). exists rest.
        cbn [append]. split; [now rewrite <- H | exact B].
Qed.

(** The agent-output branch, when the event does not change the agent. *)
Lemma render_agent_output_eq (current_agent : option string)
      (response_content : option string) (tool_calls : list ToolSelection)
      (n : string) (w : World) :
  differs n current_agent = false ->
  render_event current_agent (AgentOutput response_content tool_calls n) w =
  (Ok current_agent,
   mkWorld (store w) (writes w) (commits w)
           (stdout w ++ agent_output_lines response_content tool_calls)).
Proof.
  intros D. destruct w as [s ws cs out].
  unfold render_event. cbn [agent_name_of]. rewrite D.
  unfold render_body, agent_output_lines, bind, ret, print.
  cbn [store writes commits stdout].
  destruct response_content as [[|c txt]|]; destruct tool_calls as [|call calls];
    cbn [truthy length Nat.eqb negb store writes commits stdout app];
    rewrite ?app_nil_r, <- ?app_assoc; reflexivity.
Qed.

(** The banner branch: any event that names another agent. *)
Lemma render_banner_eq (current_agent : option string) (e : Event)
      (n : string) (w : World) :
  agent_name_of e = Some n ->
  differs n current_agent = true ->
  render_event current_agent e w =
  (Ok (Some n),
   mkWorld (store w) (writes w) (commits w) (stdout w ++ [banner n])).
Proof.
  intros N D. unfold render_event. rewrite N, D. reflexivity.
Qed.

Lemma differs_false (n : string) (current_agent : option string) :
  differs n current_agent = false <-> current_agent = Some n.
Proof.
  unfold differs. destruct current_agent as [c|]; split; try discriminate.
  - intros H. apply negb_false_iff in H. apply String.eqb_eq in H. now subst.
  - intros H. inversion H. now rewrite String.eqb_refl.
Qed.

(** The branches after the banner test only print: they do not raise. *)
Lemma render_body_ok (e : Event) (w : World) :
  exists w', render_body e w = (Ok tt, w').
Proof.
  destruct e as [n | delta n | response_content tool_calls n
                 | name kwargs tool_output | name kwargs |];
    unfold render_body, bind, ret, print; try (eexists; reflexivity).
  - destruct (truthy response_content);
      destruct (negb (Nat.eqb (length tool_calls) 0)); eexists; reflexivity.
  - destruct (negb (contains_str "handoff" name)); eexists; reflexivity.
Qed.

(** The loop body does not raise, whatever the event. *)
Lemma render_event_ok (current_agent : option string) (e : Event) (w : World) :
  exists a w', render_event current_agent e w = (Ok a, w').
Proof.
  unfold render_event.
  destruct (render_body_ok e w) as (w' & B).
  destruct (agent_name_of e) as [n|].
  - destruct (differs n current_agent).
    + do 2 eexists. reflexivity.
    + unfold bind, ret. rewrite B. do 2 eexists. reflexivity.
  - unfold bind, ret. rewrite B. do 2 eexists. reflexivity.
Qed.

(** Nor does the loop over a whole stream. *)
Lemma render_events_ok (events : list Event) :
  forall (current_agent : option string) (w : World),
    exists a w', render_events current_agent events w = (Ok a, w').
Proof.
  induction events as [|e rest IH]; intros current_agent w; simpl.
  - do 2 eexists. reflexivity.
  - destruct (render_event_ok current_agent e w) as (a & w1 & E).
    unfold bind. rewrite E. apply IH.
Qed.

(** After an event that carries an agent name the loop tracks that agent, so
    an agent-output event that follows an event of the same agent (its
    [AgentInput], say) is shown. *)
Lemma render_event_tracks (current_agent : option string) (e : Event)
      (n : string) (w : World) :
  agent_name_of e = Some n ->
  fst (render_event current_agent e w) = Ok (Some n).
Proof.
  intros N. destruct (differs n current_agent) eqn:D.
  - now rewrite (render_banner_eq current_agent e n w N D).
  - unfold render_event. rewrite N, D.
    apply differs_false in D. subst current_agent.
    destruct (render_body_ok e w) as (w' & B).
    unfold bind, ret. now rewrite B.
Qed.

(** An agent-output event whose agent is the one the loop tracks is shown:
    its text when that is not empty, then the names of its planned tools when
    there are any, and nothing else.  One that names another agent takes the
    banner branch: the banner is all that is written, and the loop then
    tracks that agent. *)
Lemma agent_output_shown_for_tracked_agent
        (current_agent : option string) (response_content : option string)
        (tool_calls : list ToolSelection) (n : string) (w : World) :
  (differs n current_agent = false ->
   fst (render_event current_agent (AgentOutput response_content tool_calls n) w)
     = Ok current_agent /\
   printed_by (render_event current_agent
                 (AgentOutput response_content tool_calls n)) w
     = agent_output_lines response_content tool_calls /\
   renders_agent_output current_agent
     (AgentOutput response_content tool_calls n) w) /\
  (differs n current_agent = true ->
   fst (render_event current_agent (AgentOutput response_content tool_calls n) w)
     = Ok (Some n) /\
   printed_by (render_event current_agent
                 (AgentOutput response_content tool_calls n)) w
     = [banner n]).
Proof.
  clear acomplete.
  split; intros D.
  - assert (P : printed_by (render_event current_agent
                   (AgentOutput response_content tool_calls n)) w
                = agent_output_lines response_content tool_calls).
    { unfold printed_by. rewrite (render_agent_output_eq _ _ _ _ _ D).
      cbn [snd stdout]. apply skipn_exact. }
    split; [now rewrite (render_agent_output_eq _ _ _ _ _ D)|].
    split; [exact P|].
    unfold renders_agent_output. rewrite P. unfold agent_output_lines. split.
    + intros s E Hne. subst response_content.
      destruct s as [|c s]; [contradiction|].
      apply in_or_app. left. simpl. tauto.
    + intros Hne. destruct tool_calls as [|call calls]; [contradiction|].
      apply in_or_app. right. simpl. tauto.
  - unfold printed_by.
    rewrite (render_banner_eq current_agent
               (AgentOutput response_content tool_calls n) n w eq_refl D).
    cbn [fst snd stdout]. split; [reflexivity | apply skipn_exact].
Qed.

(** C7. For every tool-call-result event, whatever its tool output (text or
    not), the loop does not raise; it writes the header line and the line
    ["    Output: " ++ shown ++ "..."], where [shown] is the start of
    [str(tool_output)] cut between two characters: at most 300 characters,
    exactly 300 when the text is longer. *)
Theorem tool_result_truncated
        (current_agent : option string) (name : string) (kwargs : dict)
        (tool_output : pyval) (w : World) :
  fst (render_event current_agent (ToolCallResult name kwargs tool_output) w)
    = Ok current_agent /\
  exists shown rest,
    printed_by (render_event current_agent
                  (ToolCallResult name kwargs tool_output)) w
      = [("🔧 Tool Result (" ++ name ++ "):")%string;
         ("    Output: " ++ shown ++ "...")%string] /\
    py_str repr_text tool_output = shown ++ rest /\
    starts_at_character rest = true /\
    py_len shown = Nat.min 300 (py_len (py_str repr_text tool_output)) /\
    py_len shown <= 300.
Proof.
  split; [reflexivity|].
  destruct (slice_to_prefix (py_str repr_text tool_output) 300) as (rest & E & B).
  exists (slice_to 300 (py_str repr_text tool_output)), rest.
  split; [|split; [exact E|split; [exact B|split]]].
  - unfold printed_by, render_event, render_body, bind, ret, print.
    cbn [agent_name_of fst snd store writes commits stdout String.concat].
    rewrite <- app_assoc. rewrite skipn_exact. reflexivity.
  - apply length_slice_to.
  - rewrite length_slice_to. apply Nat.le_min_l.
Qed.

(* ===================================================================== *)
(** ** The tools in sequence *)
(* ===================================================================== *)

Lemma dict_set_absorb (d : dict) (k : string) (x1 x2 : pyval) :
  dict_set (dict_set d k x1) k x2 = dict_set d k x2.
Proof.
  unfold dict_set.
  induction d as [|[k' v'] rest IH]; simpl.
  - now rewrite String.eqb_refl.
  - destruct (String.eqb k' k) eqn:E; simpl.
    + now rewrite String.eqb_refl.
    + now rewrite E, IH.
Qed.

(** A second assignment to the same item makes the first one forgotten. *)
Lemma assign_path_absorb (path : list string) :
  forall (v v1 x1 x2 : pyval) (k : string),
    assign_path v path k x1 = Ok v1 ->
    assign_path v1 path k x2 = assign_path v path k x2.
Proof.
  induction path as [|p ps IH]; intros v v1 x1 x2 k H; simpl in *.
  - apply py_setitem_ok in H. destruct H as (d & -> & ->). simpl.
    now rewrite dict_set_absorb.
  - destruct (py_getitem v p) as [inner|] eqn:G; [|discriminate].
    destruct (assign_path inner ps k x1) as [inner1|] eqn:A; [|discriminate].
    apply py_setitem_ok in H. destruct H as (d & -> & ->).
    simpl. rewrite dict_get_set_same.
    rewrite (IH inner inner1 x1 x2 k A).
    destruct (assign_path inner ps k x2) as [inner2|]; [|reflexivity].
    simpl. now rewrite dict_set_absorb.
Qed.

(** Reading a note tells the shape of the state around it. *)
Lemma note_at_inv (w : World) (t : string) (v : pyval) :
  note_at w t = Ok v ->
  exists st rn,
    eval_path (store w) ["state"] = Ok (VDict st) /\
    dict_get st "research_notes" = Some (VDict rn) /\
    dict_get rn t = Some v.
Proof.
  unfold note_at. simpl.
  destruct (py_getitem (store w) "state") as [sv|] eqn:S; [|discriminate].
  destruct (py_getitem sv "research_notes") as [rv|] eqn:G; [|discriminate].
  destruct (py_getitem rv t) as [x|] eqn:N; [|discriminate].
  intros H. inversion H. subst x.
  apply py_getitem_ok in G. destruct G as (st & -> & G).
  apply py_getitem_ok in N. destruct N as (rn & -> & N).
  exists st, rn. auto.
Qed.

Lemma note_at_ready (w : World) (t : string) (v : pyval) :
  note_at w t = Ok v -> notes_ready w = true.
Proof.
  intros H. destruct (note_at_inv w t v H) as (st & rn & S & G & _).
  unfold notes_ready. now rewrite S, G.
Qed.

(** What each call prints and commits, whether it returns or raises. *)
Lemma run_call_console (c : call) (w : World) :
  stdout (snd (run_call c w)) = (stdout w ++ [tool_line c])%list /\
  commits (snd (run_call c w)) = (commits w ++ [store (snd (run_call c w))])%list.
Proof.
  destruct c as [notes notes_title | report_content | review]; simpl.
  - rewrite record_notes_eq. cbv zeta.
    destruct (eval_path (store w) ["state"]) as [v|]; [|now split].
    destruct (py_contains v "research_notes") as [[|]|]; [| |now split].
    + destruct (assign_path (store w) ["state"; "research_notes"] notes_title
                  (VStr notes)); now split.
    + destruct (assign_path (store w) ["state"] "research_notes" (VDict []))
        as [s1|]; [|now split].
      destruct (assign_path s1 ["state"; "research_notes"] notes_title
                  (VStr notes)); now split.
  - rewrite write_report_eq.
    destruct (assign_path (store w) ["state"] "report_content"
                (VStr report_content)); now split.
  - rewrite review_report_eq.
    destruct (assign_path (store w) ["state"] "review" (VStr review)); now split.
Qed.

(** On a well-shaped state a call returns its confirmation and keeps the
    shape. *)
Lemma run_call_confirms (c : call) (w : World) :
  notes_ready w = true ->
  run_call c w = (Ok (confirmation c), snd (run_call c w)) /\
  notes_ready (snd (run_call c w)) = true.
Proof.
  intros R. destruct (run_call_ok c w R) as (r & w' & E & R').
  rewrite E. cbn [snd]. split; [|exact R'].
  pose proof (tools_return_nothing_else w) as T.
  destruct c as [notes notes_title | report_content | review];
    cbn [run_call confirmation] in *.
  - destruct (T notes notes_title "" "" r) as (T1 & _ & _).
    rewrite E in T1. now rewrite (T1 eq_refl).
  - destruct (T "" "" report_content "" r) as (_ & T2 & _).
    rewrite E in T2. now rewrite (T2 eq_refl).
  - destruct (T "" "" "" review r) as (_ & _ & T3).
    rewrite E in T3. now rewrite (T3 eq_refl).
Qed.

(** A call that does not record under a title leaves the note there. *)
Lemma run_call_keeps_note (c : call) (w : World) (t : string) (v : pyval) :
  writes_note t c = false ->
  note_at w t = Ok v ->
  note_at (snd (run_call c w)) t = Ok v.
Proof.
  intros Hc N. unfold note_at in *.
  destruct c as [notes notes_title | report_content | review];
    cbn [run_call writes_note] in *.
  - destruct (note_at_inv w t v N) as (st & rn & S & G & _).
    rewrite record_notes_eq. cbv zeta. rewrite S. simpl py_contains. rewrite G.
    destruct (assign_path (store w) ["state"; "research_notes"] notes_title
                (VStr notes)) as [s'|] eqn:A; cbn [snd store]; [|exact N].
    rewrite <- N. eapply assign_path_frame; [exact A|].
    cbn [app diverges]. rewrite Hc.
    reflexivity.
  - rewrite <- N. now apply write_report_frame.
  - rewrite <- N. now apply review_report_frame.
Qed.

Lemma run_calls_step (c : call) (rest : list call) (w : World) :
  run_calls (c :: rest) w =
  match run_call c w with
  | (Ok r, w1) =>
      match run_calls rest w1 with
      | (Ok rs, w2) => (Ok (r :: rs), w2)
      | (Raise e, w2) => (Raise e, w2)
      end
  | (Raise e, w1) => (Raise e, w1)
  end.
Proof.
  simpl. unfold bind, ret.
  destruct (run_call c w) as [[r|e] w1]; [|reflexivity].
  destruct (run_calls rest w1) as [[rs|e] w2]; reflexivity.
Qed.

(** On a well-shaped state a whole sequence of calls returns. *)
Lemma run_calls_confirm (cs : list call) :
  forall w : World,
    notes_ready w = true ->
    run_calls cs w = (Ok (map confirmation cs), snd (run_calls cs w)) /\
    notes_ready (snd (run_calls cs w)) = true.
Proof.
  induction cs as [|c rest IH]; intros w R.
  - simpl. unfold ret. cbn [snd]. now split.
  - destruct (run_call_confirms c w R) as (E & R1).
    destruct (IH (snd (run_call c w)) R1) as (E' & R').
    rewrite run_calls_step. rewrite E. rewrite E'. cbn [snd map].
    split; [reflexivity | exact R'].
Qed.

Lemma run_calls_keep_note (cs : list call) (t : string) (v : pyval) :
  forall w : World,
    existsb (writes_note t) cs = false ->
    note_at w t = Ok v ->
    note_at (snd (run_calls cs w)) t = Ok v.
Proof.
  induction cs as [|c rest IH]; intros w Hcs N.
  - exact N.
  - cbn [existsb] in Hcs. apply orb_false_iff in Hcs. destruct Hcs as (Hc & Hrest).
    pose proof (run_call_keeps_note c w t v Hc N) as N1.
    rewrite run_calls_step.
    destruct (run_call c w) as [[r|e] w1]; cbn [snd] in *; [|exact N1].
    pose proof (IH w1 Hrest N1) as N2.
    destruct (run_calls rest w1) as [[rs|e] w2]; cbn [snd] in *; exact N2.
Qed.

Lemma state_key_diverges (k1 k : string) :
  k1 <> k -> diverges ["state"; k1] ["state"; k] = true.
Proof.
  intros Hne. cbn [diverges]. rewrite String.eqb_refl.
  destruct (String.eqb k1 k) eqn:E; [|reflexivity].
  apply String.eqb_eq in E. contradiction.
Qed.

(** The report and the review of a run are texts at every point. *)
Lemma reached_fields_text (w : World) :
  reached agent_workflow w ->
  exists report review,
    state_field w "report_content" = Ok (VStr report) /\
    state_field w "review" = Ok (VStr review).
Proof.
  induction 1 as [|w c _ (report & review & Hr & Hv)].
  - exists "Not written yet.", "Review required.". split; reflexivity.
  - unfold state_field in *.
    destruct c as [notes notes_title | report_content | rv]; cbn [run_call].
    + exists report, review. split.
      * rewrite <- Hr. now apply record_notes_frame.
      * rewrite <- Hv. now apply record_notes_frame.
    + assert (Fv : eval_path (store (snd (write_report report_content w)))
                     ["state"; "review"] = Ok (VStr review))
        by (rewrite <- Hv; now apply write_report_frame).
      rewrite write_report_eq in *.
      destruct (assign_path (store w) ["state"] "report_content"
                  (VStr report_content)) as [s'|] eqn:A; cbn [snd store] in *.
      * exists report_content, review. split; [|exact Fv].
        exact (assign_path_read _ _ _ _ _ A).
      * exists report, review. now split.
    + assert (Fr : eval_path (store (snd (review_report rv w)))
                     ["state"; "report_content"] = Ok (VStr report))
        by (rewrite <- Hr; now apply review_report_frame).
      rewrite review_report_eq in *.
      destruct (assign_path (store w) ["state"] "review" (VStr rv))
        as [s'|] eqn:A; cbn [snd store] in *.
      * exists report, rv. split; [exact Fr|].
        exact (assign_path_read _ _ _ _ _ A).
      * exists report, review. now split.
Qed.

(** Calls that do not record under a title leave the note stored there as it
    is, and all of them return. *)
Theorem other_calls_keep_a_note
        (w : World) (t : string) (v : pyval) (cs : list call) :
  existsb (writes_note t) cs = false ->
  note_at w t = Ok v ->
  fst (run_calls cs w) = Ok (map confirmation cs) /\
  note_at (snd (run_calls cs w)) t = Ok v.
Proof.
  intros Hcs N. split.
  - destruct (run_calls_confirm cs w (note_at_ready w t v N)) as (E & _).
    now rewrite E.
  - now apply run_calls_keep_note.
Qed.

Lemma other_calls_keep_a_note_witness :
  note_at (snd (run_calls [CallRecordNotes "other" "Pricing";
                           CallWriteReport "# PRD";
                           CallReviewReport "Approved."]
                          (snd (record_notes "Notes" "UX" (run_start agent_workflow)))))
          "UX"
  = Ok (VStr "Notes").
Proof.
  exact (proj2 (other_calls_keep_a_note
                  (snd (record_notes "Notes" "UX" (run_start agent_workflow)))
                  "UX" (VStr "Notes")
                  [CallRecordNotes "other" "Pricing";
                   CallWriteReport "# PRD";
                   CallReviewReport "Approved."]
                  eq_refl eq_refl)).
Defined.

(** In any sequence of tool calls on a well-shaped state, the note under a
    title ends as the notes of the last call that recorded under it, whatever
    calls come before it, and whatever calls on other titles or fields come
    after it. *)
Theorem last_note_wins_among_calls
        (t n : string) (post pre : list call) (w : World) :
  notes_ready w = true ->
  existsb (writes_note t) post = false ->
  fst (run_calls (pre ++ CallRecordNotes n t :: post) w)
    = Ok (map confirmation (pre ++ CallRecordNotes n t :: post)) /\
  note_at (snd (run_calls (pre ++ CallRecordNotes n t :: post) w)) t
    = Ok (VStr n).
Proof.
  intros R Hpost. revert w R.
  induction pre as [|c pre IH]; intros w R.
  - cbn [app]. rewrite run_calls_step. cbn [run_call].
    destruct (record_notes_ok n t w R) as (w1 & E & R1 & N).
    rewrite E.
    destruct (run_calls_confirm post w1 R1) as (E' & _).
    pose proof (run_calls_keep_note post t (VStr n) w1 Hpost N) as N'.
    rewrite E' in *. cbn [fst snd map confirmation] in *. now split.
  - cbn [app]. rewrite run_calls_step.
    destruct (run_call_confirms c w R) as (E & R1).
    rewrite E.
    destruct (IH (snd (run_call c w)) R1) as (F & N).
    destruct (run_calls (pre ++ CallRecordNotes n t :: post) (snd (run_call c w)))
      as [[rs|e] w2]; cbn [fst snd] in *; [|discriminate].
    inversion F. now split.
Qed.

Lemma last_note_wins_among_calls_witness :
  note_at (snd (run_calls [CallWriteReport "draft";
                           CallRecordNotes "first" "UX";
                           CallRecordNotes "second" "UX";
                           CallRecordNotes "x" "Pricing";
                           CallReviewReport "ok"]
                          (run_start agent_workflow)))
          "UX"
  = Ok (VStr "second").
Proof.
  exact (proj2 (last_note_wins_among_calls "UX" "second"
                  [CallRecordNotes "x" "Pricing"; CallReviewReport "ok"]
                  [CallWriteReport "draft"; CallRecordNotes "first" "UX"]
                  (run_start agent_workflow) eq_refl eq_refl)).
Defined.

(** From any point of a run, every further sequence of tool calls returns:
    each call gives its confirmation, prints its one line and closes one
    scoped edit, and the run goes on from the world it leaves. *)
Theorem calls_in_a_run_return (cs : list call) :
  forall w : World,
    reached agent_workflow w ->
    fst (run_calls cs w) = Ok (map confirmation cs) /\
    reached agent_workflow (snd (run_calls cs w)) /\
    stdout (snd (run_calls cs w)) = (stdout w ++ map tool_line cs)%list /\
    length (commits (snd (run_calls cs w))) = length (commits w) + length cs.
Proof.
  induction cs as [|c rest IH]; intros w H.
  - simpl. unfold ret. cbn [fst snd]. rewrite app_nil_r.
    repeat split; [exact H | lia].
  - pose proof (reached_call agent_workflow w c H) as H1.
    destruct (run_call_confirms c w (reached_notes_ready w H)) as (E & _).
    destruct (run_call_console c w) as (Out & Com).
    destruct (IH (snd (run_call c w)) H1) as (F & H' & Out' & Com').
    rewrite run_calls_step. rewrite E.
    destruct (run_calls rest (snd (run_call c w))) as [[rs|e] w2];
      cbn [fst snd] in *; [|discriminate].
    inversion F. subst rs.
    split; [reflexivity|]. split; [exact H'|]. split.
    + rewrite Out', Out. cbn [map]. now rewrite <- app_assoc.
    + rewrite Com', Com. rewrite length_app. cbn [length]. lia.
Qed.

Lemma calls_in_a_run_return_witness :
  fst (run_calls [CallRecordNotes "Notes" "UX"; CallWriteReport "# PRD"]
                 (run_start agent_workflow))
  = Ok ["Notes recorded."; "Report written."].
Proof.
  exact (proj1 (calls_in_a_run_return
                  [CallRecordNotes "Notes" "UX"; CallWriteReport "# PRD"]
                  (run_start agent_workflow) (reached_start agent_workflow))).
Defined.

(** The store a call of [record_notes] leaves depends on the store alone. *)
Lemma record_notes_store (notes notes_title : string) (w : World) :
  store (snd (record_notes notes notes_title w)) =
  match eval_path (store w) ["state"] with
  | Raise _ => store w
  | Ok v =>
      match py_contains v "research_notes" with
      | Raise _ => store w
      | Ok true =>
          match assign_path (store w) ["state"; "research_notes"] notes_title
                            (VStr notes) with
          | Ok s' => s'
          | Raise _ => store w
          end
      | Ok false =>
          match assign_path (store w) ["state"] "research_notes" (VDict []) with
          | Raise _ => store w
          | Ok s1 =>
              match assign_path s1 ["state"; "research_notes"] notes_title
                                (VStr notes) with
              | Ok s' => s'
              | Raise _ => s1
              end
          end
      end
  end.
Proof.
  rewrite record_notes_eq. cbv zeta.
  destruct (eval_path (store w) ["state"]) as [v|]; [|reflexivity].
  destruct (py_contains v "research_notes") as [[|]|]; [| |reflexivity].
  - destruct (assign_path (store w) ["state"; "research_notes"] notes_title
                (VStr notes)); reflexivity.
  - destruct (assign_path (store w) ["state"] "research_notes" (VDict []))
      as [s1|]; [|reflexivity].
    destruct (assign_path s1 ["state"; "research_notes"] notes_title
                (VStr notes)); reflexivity.
Qed.

Lemma write_report_store (report_content : string) (w : World) :
  store (snd (write_report report_content w)) =
  match assign_path (store w) ["state"] "report_content" (VStr report_content) with
  | Ok s' => s'
  | Raise _ => store w
  end.
Proof.
  rewrite write_report_eq.
  destruct (assign_path (store w) ["state"] "report_content"
              (VStr report_content)); reflexivity.
Qed.

Lemma review_report_store (review : string) (w : World) :
  store (snd (review_report review w)) =
  match assign_path (store w) ["state"] "review" (VStr review) with
  | Ok s' => s'
  | Raise _ => store w
  end.
Proof.
  rewrite review_report_eq.
  destruct (assign_path (store w) ["state"] "review" (VStr review)); reflexivity.
Qed.

(** A store in which the notes mapping can be read has the key. *)
Lemma notes_present (s : pyval) (d : dict) :
  eval_path s ["state"; "research_notes"] = Ok (VDict d) ->
  exists v, eval_path s ["state"] = Ok v /\ py_contains v "research_notes" = Ok true.
Proof.
  simpl. destruct (py_getitem s "state") as [sv|]; [|discriminate].
  destruct (py_getitem sv "research_notes") as [rv|] eqn:G; [|discriminate].
  intros _. exists sv. split; [reflexivity|].
  apply py_getitem_ok in G. destruct G as (st & -> & G). simpl. now rewrite G.
Qed.

(** After an assignment along a path, the container of the item is a
    mapping. *)
Lemma assign_path_container_dict (path : list string) :
  forall (v v' x : pyval) (k : string),
    assign_path v path k x = Ok v' ->
    exists d, eval_path v' path = Ok (VDict d).
Proof.
  induction path as [|p ps IH]; intros v v' x k H; simpl in *.
  - apply py_setitem_ok in H. destruct H as (d & -> & ->). eauto.
  - destruct (py_getitem v p) as [inner|] eqn:G; [|discriminate].
    destruct (assign_path inner ps k x) as [inner'|] eqn:A; [|discriminate].
    apply py_setitem_ok in H. destruct H as (d & -> & ->). simpl.
    rewrite dict_get_set_same. eapply IH. exact A.
Qed.

(** Whether an assignment raises does not depend on the value assigned. *)
Lemma assign_path_any_value (path : list string) :
  forall (v v1 x1 x2 : pyval) (k : string),
    assign_path v path k x1 = Ok v1 ->
    exists v2, assign_path v path k x2 = Ok v2.
Proof.
  induction path as [|p ps IH]; intros v v1 x1 x2 k H; simpl in *.
  - apply py_setitem_ok in H. destruct H as (d & -> & _). simpl. eauto.
  - destruct (py_getitem v p) as [inner|] eqn:G; [|discriminate].
    destruct (assign_path inner ps k x1) as [inner1|] eqn:A; [|discriminate].
    apply py_setitem_ok in H. destruct H as (d & -> & _).
    destruct (IH inner inner1 x1 x2 k A) as (inner2 & A2). rewrite A2.
    simpl. eauto.
Qed.

(** Writing the same item twice leaves the store as the second write alone
    would: a later report replaces an earlier one, a later review an earlier
    one, and later notes under a title the earlier notes under it.  This
    holds from every store, also one on which the calls raise. *)
Theorem later_write_replaces_earlier
        (w : World) (first second notes_title : string) :
  store (snd (write_report second (snd (write_report first w))))
    = store (snd (write_report second w)) /\
  store (snd (review_report second (snd (review_report first w))))
    = store (snd (review_report second w)) /\
  store (snd (record_notes second notes_title
                (snd (record_notes first notes_title w))))
    = store (snd (record_notes second notes_title w)).
Proof.
  split; [|split].
  - rewrite (write_report_store second (snd (write_report first w))).
    rewrite (write_report_store first w), (write_report_store second w).
    destruct (assign_path (store w) ["state"] "report_content" (VStr first))
      as [s1|] eqn:A; [|reflexivity].
    rewrite (assign_path_absorb _ _ _ _ (VStr second) _ A).
    destruct (assign_path_any_value _ _ _ _ (VStr second) _ A) as (s2 & A2).
    now rewrite A2.
  - rewrite (review_report_store second (snd (review_report first w))).
    rewrite (review_report_store first w), (review_report_store second w).
    destruct (assign_path (store w) ["state"] "review" (VStr first))
      as [s1|] eqn:A; [|reflexivity].
    rewrite (assign_path_absorb _ _ _ _ (VStr second) _ A).
    destruct (assign_path_any_value _ _ _ _ (VStr second) _ A) as (s2 & A2).
    now rewrite A2.
  - rewrite (record_notes_store second notes_title
               (snd (record_notes first notes_title w))).
    rewrite (record_notes_store first notes_title w).
    rewrite (record_notes_store second notes_title w).
    destruct (eval_path (store w) ["state"]) as [v|] eqn:S;
      [|now rewrite S].
    destruct (py_contains v "research_notes") as [[|]|] eqn:C;
      [| |now rewrite S, C].
    + destruct (assign_path (store w) ["state"; "research_notes"] notes_title
                  (VStr first)) as [s1|] eqn:A; [|now rewrite S, C].
      destruct (assign_path_container_dict _ _ _ _ _ A) as (d & D).
      destruct (notes_present s1 d D) as (v1 & S1 & C1).
      rewrite S1, C1.
      rewrite (assign_path_absorb _ _ _ _ (VStr second) _ A).
      destruct (assign_path_any_value _ _ _ _ (VStr second) _ A) as (s2 & A2).
      now rewrite A2.
    + destruct (assign_path (store w) ["state"] "research_notes" (VDict []))
        as [sa|] eqn:A0; [|now rewrite S, C, A0].
      pose proof (assign_path_read _ _ _ _ _ A0) as R0. simpl app in R0.
      destruct (assign_path_ok ["state"; "research_notes"] sa (VStr first)
                  notes_title [] R0) as (s1 & A).
      rewrite A.
      destruct (assign_path_container_dict _ _ _ _ _ A) as (d & D).
      destruct (notes_present s1 d D) as (v1 & S1 & C1).
      rewrite S1, C1.
      rewrite (assign_path_absorb _ _ _ _ (VStr second) _ A).
      destruct (assign_path_any_value _ _ _ _ (VStr second) _ A) as (s2 & A2).
      now rewrite A2.
Qed.

(** Without a state in the store (the subscript [ctx_state["state"]] raises),
    each of the three tools raises that same exception after printing its
    line, and writes nothing. *)
Theorem tools_raise_without_state (w : World) (e : exn) (c : call) :
  eval_path (store w) ["state"] = Raise e ->
  run_call c w =
  (Raise e,
   mkWorld (store w) (writes w) (commits w ++ [store w])
           (stdout w ++ [tool_line c])).
Proof.
  intros S.
  assert (G : py_getitem (store w) "state" = Raise e).
  { simpl in S. destruct (py_getitem (store w) "state"); [discriminate|exact S]. }
  destruct c as [notes notes_title | report_content | review]; cbn [run_call tool_line].
  - rewrite record_notes_eq. cbv zeta. now rewrite S.
  - rewrite write_report_eq. simpl assign_path. now rewrite G.
  - rewrite review_report_eq. simpl assign_path. now rewrite G.
Qed.

Lemma tools_raise_without_state_witness :
  run_call (CallWriteReport "# PRD") (mkWorld (VDict []) [] [] [])
  = (Raise (KeyError "state"),
     mkWorld (VDict []) [] [VDict []] ["--- Writing report ---"]).
Proof.
  exact (tools_raise_without_state (mkWorld (VDict []) [] [] [])
           (KeyError "state") (CallWriteReport "# PRD") eq_refl).
Defined.

(** When ["research_notes"] holds something that is not a mapping (a text, a
    list, [None], a number), [record_notes] raises [TypeError] after printing
    its line and writes nothing. *)
Theorem record_notes_rejects_non_mapping
        (w : World) (v : pyval) (notes notes_title : string) :
  state_field w "research_notes" = Ok v ->
  (forall d, v <> VDict d) ->
  record_notes notes notes_title w =
  (Raise TypeError,
   mkWorld (store w) (writes w) (commits w ++ [store w])
           (stdout w ++ [tool_line (CallRecordNotes notes notes_title)])).
Proof.
  unfold state_field. intros F Hv.
  assert (S : exists st, eval_path (store w) ["state"] = Ok (VDict st) /\
                         dict_get st "research_notes" = Some v).
  { simpl in F. simpl.
    destruct (py_getitem (store w) "state") as [sv|]; [|discriminate].
    destruct (py_getitem sv "research_notes") as [x|] eqn:G; [|discriminate].
    inversion F. subst x.
    apply py_getitem_ok in G. destruct G as (st & -> & G). eauto. }
  destruct S as (st & S & G).
  assert (A : assign_path (store w) ["state"; "research_notes"] notes_title
                          (VStr notes) = Raise TypeError).
  { simpl in S. simpl.
    destruct (py_getitem (store w) "state") as [sv|]; [|discriminate].
    inversion S. subst sv. simpl. rewrite G.
    destruct v; try reflexivity. exfalso. now apply (Hv entries). }
  rewrite record_notes_eq. cbv zeta. rewrite S. simpl py_contains. rewrite G.
  now rewrite A.
Qed.

Lemma record_notes_rejects_non_mapping_witness :
  record_notes "Notes" "UX"
    (mkWorld (VDict [("state", VDict [("research_notes", VNone)])]) [] [] [])
  = (Raise TypeError,
     mkWorld (VDict [("state", VDict [("research_notes", VNone)])]) []
             [VDict [("state", VDict [("research_notes", VNone)])]]
             ["--- Recording notes titled: 'UX' ---"]).
Proof.
  apply (record_notes_rejects_non_mapping
           (mkWorld (VDict [("state", VDict [("research_notes", VNone)])]) [] [] [])
           VNone "Notes" "UX").
  - reflexivity.
  - discriminate.
Defined.

(** The tools bound to an agent write one field of the state: whatever
    ResearchAgent can call leaves every key but ["research_notes"] as it
    was, WriteAgent every key but ["report_content"], ReviewAgent every key
    but ["review"]; this holds for every store and whether the call returns
    or raises. *)
Theorem agents_write_their_own_field (w : World) (c : call) (k : string) :
  (In (tool_of_call c) (tools research_agent) -> k <> "research_notes" ->
   state_field (snd (run_call c w)) k = state_field w k) /\
  (In (tool_of_call c) (tools write_agent) -> k <> "report_content" ->
   state_field (snd (run_call c w)) k = state_field w k) /\
  (In (tool_of_call c) (tools review_agent) -> k <> "review" ->
   state_field (snd (run_call c w)) k = state_field w k).
Proof.
  unfold state_field.
  split; [|split]; intros Hin Hk;
    destruct c as [notes notes_title | report_content | review];
    cbn [tool_of_call tools research_agent write_agent review_agent In] in Hin;
    try (repeat (destruct Hin as [Hin|Hin]; try discriminate Hin);
         contradiction);
    cbn [run_call].
  - apply record_notes_frame. now apply state_key_diverges.
  - apply write_report_frame. now apply state_key_diverges.
  - apply review_report_frame. now apply state_key_diverges.
Qed.

Lemma agents_write_their_own_field_witness :
  state_field (snd (run_call (CallWriteReport "# PRD") (run_start agent_workflow)))
              "research_notes"
  = state_field (run_start agent_workflow) "research_notes".
Proof.
  apply (proj1 (proj2 (agents_write_their_own_field
                         (run_start agent_workflow) (CallWriteReport "# PRD")
                         "research_notes"))).
  - simpl. tauto.
  - discriminate.
Defined.


(* ===================================================================== *)
(** ** The handoff graph, further *)
(* ===================================================================== *)

Lemma edge_ends (src dst : string) :
  In (src, dst) handoff_edges ->
  In src agent_names /\ In dst agent_names /\ src <> dst.
Proof.
  simpl. intros [H|[H|[H|[H|[H|[]]]]]]; inversion H; subst;
    (split; [tauto|split; [tauto|discriminate]]).
Qed.

(** The declared handoffs never leave the three agents and never name the
    agent itself; only WriteAgent hands off to ReviewAgent; and from every
    agent a chain of declared handoffs leads to every agent, so no agent is a
    dead end. *)
Theorem handoff_graph_closed_and_connected :
  (forall src dst,
     may_handoff agent_workflow src dst = true ->
     In src agent_names /\ In dst agent_names /\ src <> dst) /\
  (forall src,
     may_handoff agent_workflow src "ReviewAgent" = true -> src = "WriteAgent") /\
  (forall a b,
     In a agent_names -> In b agent_names -> handoff_path agent_workflow a b).
Proof.
  split; [|split].
  - intros src dst H. apply may_handoff_edges in H. now apply edge_ends.
  - intros src H. apply may_handoff_edges in H. simpl in H.
    destruct H as [H|[H|[H|[H|[H|[]]]]]]; inversion H; reflexivity.
  - assert (RW : may_handoff agent_workflow "ResearchAgent" "WriteAgent" = true)
      by reflexivity.
    assert (WV : may_handoff agent_workflow "WriteAgent" "ReviewAgent" = true)
      by reflexivity.
    assert (WR : may_handoff agent_workflow "WriteAgent" "ResearchAgent" = true)
      by reflexivity.
    assert (VR : may_handoff agent_workflow "ReviewAgent" "ResearchAgent" = true)
      by reflexivity.
    assert (VW : may_handoff agent_workflow "ReviewAgent" "WriteAgent" = true)
      by reflexivity.
    intros a b Ha Hb. simpl in Ha, Hb.
    destruct Ha as [<-|[<-|[<-|[]]]]; destruct Hb as [<-|[<-|[<-|[]]]];
      try apply path_here.
    + exact (path_step _ _ _ _ RW (path_here _ _)).
    + exact (path_step _ _ _ _ RW (path_step _ _ _ _ WV (path_here _ _))).
    + exact (path_step _ _ _ _ WR (path_here _ _)).
    + exact (path_step _ _ _ _ WV (path_here _ _)).
    + exact (path_step _ _ _ _ VR (path_here _ _)).
    + exact (path_step _ _ _ _ VW (path_here _ _)).
Qed.

Lemma handoff_graph_closed_and_connected_witness :
  handoff_path agent_workflow "ReviewAgent" "WriteAgent".
Proof.
  apply (proj2 (proj2 handoff_graph_closed_and_connected)); simpl; tauto.
Defined.

(* ===================================================================== *)
(** ** The event loop, further *)
(* ===================================================================== *)

(** The branches after the banner test print their lines and do nothing
    else. *)
Lemma render_body_eq (e : Event) (w : World) :
  render_body e w =
  (Ok tt, mkWorld (store w) (writes w) (commits w) (stdout w ++ body_lines e)).
Proof.
  destruct w as [s ws cs out].
  destruct e as [n | delta n | response_content tool_calls n
                 | name kwargs tool_output | name kwargs |];
    unfold render_body, body_lines, agent_output_lines, bind, ret, print;
    cbn [store writes commits stdout]; rewrite ?app_nil_r; try reflexivity.
  - destruct response_content as [[|c txt]|]; destruct tool_calls as [|call calls];
      cbn [truthy length Nat.eqb negb store writes commits stdout app];
      rewrite ?app_nil_r, <- ?app_assoc; reflexivity.
  - now rewrite <- app_assoc.
  - destruct (contains_str "handoff" name);
      cbn [negb store writes commits stdout];
      rewrite ?app_nil_r, <- ?app_assoc; reflexivity.
Qed.

(** One round of the loop: the tracked agent and the lines. *)
Lemma render_event_eq (current_agent : option string) (e : Event) (w : World) :
  render_event current_agent e w =
  (Ok (next_agent current_agent e),
   mkWorld (store w) (writes w) (commits w)
           (stdout w ++ event_lines current_agent e)).
Proof.
  unfold render_event, next_agent, event_lines.
  destruct (agent_name_of e) as [n|] eqn:N.
  - destruct (differs n current_agent) eqn:D; [reflexivity|].
    apply differs_false in D. subst current_agent.
    unfold bind, ret. now rewrite render_body_eq.
  - unfold bind, ret. now rewrite render_body_eq.
Qed.

(** The whole loop: the tracked agent and the lines. *)
Lemma render_events_eq (events : list Event) :
  forall (current_agent : option string) (w : World),
    render_events current_agent events w =
    (Ok (last_agent current_agent events),
     mkWorld (store w) (writes w) (commits w)
             (stdout w ++ stream_lines current_agent events)).
Proof.
  induction events as [|e rest IH]; intros current_agent w.
  - simpl. unfold ret. rewrite app_nil_r. now destruct w.
  - cbn [render_events last_agent stream_lines]. unfold bind.
    rewrite render_event_eq. rewrite IH. cbn [store writes commits stdout].
    now rewrite <- app_assoc.
Qed.

Lemma last_agent_app (a b : list Event) :
  forall current_agent : option string,
    last_agent current_agent (a ++ b) = last_agent (last_agent current_agent a) b.
Proof.
  induction a as [|e a IH]; intros current_agent; simpl; [reflexivity | apply IH].
Qed.

Lemma stream_lines_app (a b : list Event) :
  forall current_agent : option string,
    stream_lines current_agent (a ++ b) =
    (stream_lines current_agent a
     ++ stream_lines (last_agent current_agent a) b)%list.
Proof.
  induction a as [|e a IH]; intros current_agent; simpl; [reflexivity|].
  now rewrite IH, app_assoc.
Qed.

(** The loop never raises and only prints: after any stream the store and
    its histories are as before, the console has kept its lines, and the
    tracked agent is the one named by the last event that names an agent
    (the agent tracked before, when no event names one). *)
Theorem event_loop_only_prints
        (current_agent : option string) (events : list Event) (w : World) :
  fst (render_events current_agent events w) = Ok (last_agent current_agent events) /\
  store (snd (render_events current_agent events w)) = store w /\
  writes (snd (render_events current_agent events w)) = writes w /\
  commits (snd (render_events current_agent events w)) = commits w /\
  firstn (length (stdout w)) (stdout (snd (render_events current_agent events w)))
    = stdout w.
Proof.
  rewrite render_events_eq. cbn [fst snd store writes commits stdout].
  repeat split.
  rewrite firstn_app, Nat.sub_diag, firstn_all. cbn [firstn]. apply app_nil_r.
Qed.

(** Rendering a stream in two parts gives what rendering it whole gives: the
    second part starts from the agent tracked after the first. *)
Theorem event_loop_splits
        (current_agent : option string) (first second : list Event) (w : World) :
  render_events current_agent (first ++ second) w =
  render_events (last_agent current_agent first) second
                (snd (render_events current_agent first w)).
Proof.
  rewrite !render_events_eq. cbn [snd store writes commits stdout].
  now rewrite last_agent_app, stream_lines_app, app_assoc.
Qed.

(** *** Text lemmas *)

Lemma length_append (a b : string) :
  String.length (a ++ b) = String.length a + String.length b.
Proof.
  induction a as [|c a IH]; simpl; [reflexivity | now rewrite IH].
Qed.

Lemma append_assoc (a b c : string) : (a ++ b) ++ c = a ++ b ++ c.
Proof.
  induction a as [|x a IH]; simpl; [reflexivity | now rewrite IH].
Qed.

Lemma append_cancel_r (c : string) :
  forall a b : string, a ++ c = b ++ c -> a = b.
Proof.
  induction a as [|x a IH]; intros b H.
  - destruct b as [|y b]; [reflexivity|].
    apply (f_equal String.length) in H. simpl in H.
    rewrite length_append in H. lia.
  - destruct b as [|y b].
    + apply (f_equal String.length) in H. simpl in H.
      rewrite length_append in H. lia.
    + simpl in H. inversion H. f_equal. now apply IH.
Qed.

Lemma append_cancel_l (a : string) :
  forall b c : string, a ++ b = a ++ c -> b = c.
Proof.
  induction a as [|x a IH]; intros b c H; simpl in H; [exact H|].
  inversion H. now apply IH.
Qed.

Lemma prefix_spec (a : string) :
  forall b : string, String.prefix a b = true <-> exists rest, b = a ++ rest.
Proof.
  induction a as [|x a IH]; intros b.
  - split; [intros _; now exists b | now destruct b].
  - destruct b as [|y b]; simpl.
    + split; [discriminate | intros (rest & H); discriminate H].
    + destruct (ascii_dec x y) as [->|Hne].
      * rewrite IH. split; intros (rest & H); exists rest.
        -- now rewrite H.
        -- now inversion H.
      * split; [discriminate|]. intros (rest & H). inversion H. congruence.
Qed.

(** [needle in hay] holds exactly when the needle lies somewhere in the
    text. *)
Lemma contains_str_spec (needle : string) :
  forall hay : string,
    contains_str needle hay = true <->
    exists pre post, hay = pre ++ needle ++ post.
Proof.
  induction hay as [|c hay IH].
  - cbn [contains_str]. rewrite orb_false_r, prefix_spec. split.
    + intros (rest & H). exists "", rest. exact H.
    + intros (pre & post & H). destruct pre as [|x pre]; [|discriminate H].
      now exists post.
  - cbn [contains_str]. rewrite orb_true_iff, prefix_spec, IH. split.
    + intros [(rest & H) | (pre & post & H)].
      * exists "", rest. exact H.
      * exists (String c pre), post. simpl. now rewrite H.
    + intros (pre & post & H). destruct pre as [|x pre].
      * left. now exists post.
      * right. simpl in H. inversion H. now exists pre, post.
Qed.

Lemma slice_to_short (s : string) :
  forall n : nat, py_len s <= n -> slice_to n s = s.
Proof.
  induction s as [|c s IH]; intros n H; cbn [slice_to py_len] in *;
    [reflexivity|].
  destruct (is_continuation c).
  - now rewrite IH.
  - destruct n as [|m]; [lia|]. rewrite IH; [reflexivity | lia].
Qed.

Lemma printed_by_event (current_agent : option string) (e : Event) (w : World) :
  printed_by (render_event current_agent e) w = event_lines current_agent e.
Proof.
  unfold printed_by. rewrite render_event_eq. cbn [snd stdout].
  apply skipn_exact.
Qed.

(** *** Tool calls and tool results *)

(** A tool call whose name has "handoff" anywhere in it is not shown; any
    other tool call is shown by its name and its arguments.  Neither changes
    the tracked agent. *)
Theorem handoff_calls_are_hidden
        (current_agent : option string) (name : string) (kwargs : dict)
        (w : World) :
  fst (render_event current_agent (ToolCall name kwargs) w) = Ok current_agent /\
  ((exists pre post, name = pre ++ "handoff" ++ post) ->
   printed_by (render_event current_agent (ToolCall name kwargs)) w = []) /\
  ((forall pre post, name <> pre ++ "handoff" ++ post) ->
   printed_by (render_event current_agent (ToolCall name kwargs)) w
     = [("🔨 Calling Tool: " ++ name)%string;
        ("    With arguments: " ++ py_str repr_text (VDict kwargs))%string]).
Proof.
  rewrite printed_by_event, render_event_eq.
  cbn [fst event_lines next_agent agent_name_of body_lines].
  split; [reflexivity|]. split.
  - intros H. apply contains_str_spec in H. now rewrite H.
  - intros H. destruct (contains_str "handoff" name) eqn:C; [|reflexivity].
    apply contains_str_spec in C. destruct C as (pre & post & C).
    now elim (H pre post).
Qed.

(** The output line of a tool result is never longer than 315 characters,
    and it always ends in the three dots: a tool output of at most 300
    characters is shown in full with the dots after it, although nothing was
    cut. *)
Theorem tool_result_line_bounds
        (current_agent : option string) (name : string) (kwargs : dict)
        (tool_output : pyval) (w : World) :
  exists header line,
    printed_by (render_event current_agent
                  (ToolCallResult name kwargs tool_output)) w = [header; line] /\
    py_len line <= 315 /\
    (exists shown, line = "    Output: " ++ shown ++ "...") /\
    (py_len (py_str repr_text tool_output) <= 300 ->
     line = "    Output: " ++ py_str repr_text tool_output ++ "...") /\
    (300 < py_len (py_str repr_text tool_output) ->
     py_len line = 315).
Proof.
  rewrite printed_by_event.
  cbn [event_lines agent_name_of body_lines].
  do 2 eexists. split; [reflexivity|].
  pose proof (length_slice_to (py_str repr_text tool_output) 300) as L.
  assert (P : py_len "    Output: " = 12) by reflexivity.
  assert (D : py_len "..." = 3) by reflexivity.
  split; [|split; [|split]].
  - rewrite !py_len_append, L, P, D. lia.
  - eexists. reflexivity.
  - intros H. now rewrite slice_to_short.
  - intros H. rewrite !py_len_append, L, P, D. lia.
Qed.

(** *** The banner *)

Lemma banner_inj (m n : string) : banner m = banner n -> m = n.
Proof.
  unfold banner. intros H.
  do 4 apply append_cancel_l in H.
  now apply append_cancel_r in H.
Qed.

Lemma banner_first (m : string) :
  String.get 0 (banner m) = Some (ascii_of_nat 10).
Proof. reflexivity. Qed.

(** No line of the other branches starts like a banner. *)
Lemma body_line_first (e : Event) (line : string) :
  In line (body_lines e) -> String.get 0 line <> Some (ascii_of_nat 10).
Proof.
  destruct e as [n | delta n | response_content tool_calls n
                 | name kwargs tool_output | name kwargs |];
    cbn [body_lines]; try (intros H; exact (match H with end)).
  - unfold agent_output_lines. intros H. apply in_app_or in H.
    destruct H as [H|H].
    + destruct response_content as [[|c txt]|]; try (destruct H; fail).
      destruct H as [<-|[]].
      unfold output_line, output_label. cbn [String.get append]. discriminate.
    + destruct tool_calls as [|call calls]; [destruct H|].
      destruct H as [<-|[]].
      unfold planning_line, planning_label. cbn [String.get append]. discriminate.
  - cbn [In]. intros [<-|[<-|[]]]; cbn [String.get append]; discriminate.
  - destruct (contains_str "handoff" name); [intros []|].
    cbn [In]. intros [<-|[<-|[]]]; cbn [String.get append]; discriminate.
Qed.

(** The banner of an agent is printed exactly for an event that carries that
    agent's name while the loop tracks another agent (or none yet); such an
    event prints the banner and nothing else. *)
Theorem banner_marks_agent_change
        (current_agent : option string) (e : Event) (w : World) (m : string) :
  (In (banner m) (printed_by (render_event current_agent e) w) <->
   agent_name_of e = Some m /\ differs m current_agent = true) /\
  (agent_name_of e = Some m -> differs m current_agent = true ->
   printed_by (render_event current_agent e) w = [banner m]).
Proof.
  rewrite printed_by_event. unfold event_lines. split.
  - split.
    + intros H. destruct (agent_name_of e) as [n|].
      * destruct (differs n current_agent) eqn:D.
        -- destruct H as [H|[]]. apply banner_inj in H. subst n. now split.
        -- apply body_line_first in H. now rewrite banner_first in H.
      * apply body_line_first in H. now rewrite banner_first in H.
    + intros (N & D). rewrite N, D. now left.
  - intros N D. now rewrite N, D.
Qed.

(** *** [run_workflow] as a whole *)

Lemma state_field_inv (w : World) (k : string) (v : pyval) :
  state_field w k = Ok v ->
  exists sv, py_getitem (store w) "state" = Ok sv /\ py_getitem sv k = Ok v.
Proof.
  unfold state_field. simpl.
  destruct (py_getitem (store w) "state") as [sv|]; [|discriminate].
  destruct (py_getitem sv k) as [x|] eqn:G; [|discriminate].
  intros H. inversion H. subst x. eauto.
Qed.

(** With both fields in the state, the closing section prints its lines. *)
Lemma closing_section_eq (w : World) (report review : pyval) :
  state_field w "report_content" = Ok report ->
  state_field w "review" = Ok review ->
  closing_section w =
  (Ok tt,
   mkWorld (store w) (writes w) (commits w)
           (stdout w ++ closing_lines report review)).
Proof.
  intros Hr Hv.
  destruct (state_field_inv w _ _ Hr) as (sv & S & Gr).
  destruct (state_field_inv w _ _ Hv) as (sv' & S' & Gv).
  rewrite S in S'. inversion S'. subst sv'.
  unfold closing_section, bind, print, store_get, lift, ret.
  cbn [store writes commits stdout].
  rewrite S, Gr, Gv. cbn [String.concat closing_lines].
  repeat rewrite <- app_assoc. reflexivity.
Qed.

(** On a state that lacks ["report_content"], the loop and the closing
    section raise the lookup error after the stream and the two headers; on
    a state that has it but lacks ["review"], they print the report and raise
    at the review.  The store is left as it was in both cases. *)
Theorem closing_section_raises_on_missing_field
        (events : list Event) (w : World) (sv : pyval) (e : exn) :
  eval_path (store w) ["state"] = Ok sv ->
  (py_getitem sv "report_content" = Raise e ->
   render_and_close events w =
   (Raise e,
    mkWorld (store w) (writes w) (commits w)
            (stdout w ++ stream_lines None events
               ++ [(nl ++ "--- ✅ Workflow Complete ---")%string;
                   (nl ++ "--- Final Report Content ---" ++ nl)%string]))) /\
  (forall report,
     py_getitem sv "report_content" = Ok report ->
     py_getitem sv "review" = Raise e ->
     render_and_close events w =
     (Raise e,
      mkWorld (store w) (writes w) (commits w)
              (stdout w ++ stream_lines None events
                 ++ [(nl ++ "--- ✅ Workflow Complete ---")%string;
                     (nl ++ "--- Final Report Content ---" ++ nl)%string;
                     py_str repr_text report;
                     (nl ++ "----------------------------" ++ nl)%string;
                     (nl ++ "--- Final Review ---" ++ nl)%string]))).
Proof.
  intros S.
  assert (G : py_getitem (store w) "state" = Ok sv).
  { simpl in S. destruct (py_getitem (store w) "state"); [exact S|discriminate]. }
  split.
  - intros Gr. unfold render_and_close, closing_section, bind.
    rewrite render_events_eq.
    unfold print, store_get, lift, ret. cbn [store writes commits stdout].
    rewrite G, Gr. cbn [String.concat].
    repeat rewrite <- app_assoc. reflexivity.
  - intros report Gr Gv. unfold render_and_close, closing_section, bind.
    rewrite render_events_eq.
    unfold print, store_get, lift, ret. cbn [store writes commits stdout].
    rewrite G, Gr, Gv. cbn [String.concat].
    repeat rewrite <- app_assoc. reflexivity.
Qed.

(** *** The run as it goes on *)

Lemma notes_ready_store (w1 w2 : World) :
  store w1 = store w2 -> notes_ready w1 = notes_ready w2.
Proof.
  intros H. unfold notes_ready. now rewrite H.
Qed.

(** The store a call leaves depends on the store it finds, not on the
    console or the histories. *)
Lemma run_call_store_only (c : call) (w1 w2 : World) :
  store w1 = store w2 ->
  store (snd (run_call c w1)) = store (snd (run_call c w2)).
Proof.
  intros H. destruct c as [notes notes_title | report_content | review];
    cbn [run_call].
  - rewrite !record_notes_store. now rewrite H.
  - rewrite !write_report_store. now rewrite H.
  - rewrite !review_report_store. now rewrite H.
Qed.

Lemma run_calls_store_only (cs : list call) :
  forall w1 w2 : World,
    notes_ready w1 = true ->
    store w1 = store w2 ->
    store (snd (run_calls cs w1)) = store (snd (run_calls cs w2)).
Proof.
  induction cs as [|c rest IH]; intros w1 w2 R1 H.
  - exact H.
  - assert (R2 : notes_ready w2 = true)
      by (now rewrite <- (notes_ready_store w1 w2 H)).
    destruct (run_call_confirms c w1 R1) as (E1 & R1').
    destruct (run_call_confirms c w2 R2) as (E2 & _).
    pose proof (run_call_store_only c w1 w2 H) as H'.
    pose proof (IH _ _ R1' H') as IH'.
    rewrite !run_calls_step. rewrite E1, E2.
    destruct (run_calls rest (snd (run_call c w1))) as [[rs1|e1] u1];
      destruct (run_calls rest (snd (run_call c w2))) as [[rs2|e2] u2];
      exact IH'.
Qed.

(** Tool calls lead from a state of a run to a state of the run. *)
Lemma reached_run_calls (cs : list call) :
  forall w : World,
    reached agent_workflow w -> reached agent_workflow (snd (run_calls cs w)).
Proof.
  induction cs as [|c rest IH]; intros w H; [exact H|].
  pose proof (reached_call agent_workflow w c H) as H1.
  pose proof (IH _ H1) as H2.
  rewrite run_calls_step.
  destruct (run_call c w) as [[r|e] w1]; cbn [snd] in *; [|exact H1].
  destruct (run_calls rest w1) as [[rs|e] w2]; exact H2.
Qed.

(** [search_web] prints its line and returns the text of the answer, or
    raises what the model call raised; it leaves the store alone. *)
Lemma search_web_eq (query : string) (w : World) :
  search_web repr_text acomplete query w =
  (match acomplete (search_prompt query) with
   | Ok response => Ok (py_str repr_text response)
   | Raise e => Raise e
   end,
   mkWorld (store w) (writes w) (commits w) (stdout w ++ [search_line query])).
Proof.
  unfold search_web, bind, ret, print, lift. fold (search_prompt query).
  cbn [store writes commits stdout String.concat].
  destruct (acomplete (search_prompt query)); reflexivity.
Qed.

(** While a run that completes goes on, the loop does not raise; the store
    ends as the tools of the run made it, and the console has the lines of
    the loop and of the tools in the order of the run. *)
Lemma live_loop_eq (run : list RunItem) :
  forall (current_agent : option string) (w : World),
    run_completes run = true ->
    notes_ready w = true ->
    exists a w',
      live_loop current_agent run w = (Ok a, w') /\
      store w' = store (snd (run_calls (calls_of run) w)) /\
      stdout w' = (stdout w ++ live_lines current_agent run)%list.
Proof.
  induction run as [|item rest IH]; intros current_agent w C R.
  - exists current_agent, w. cbn. unfold ret. now rewrite app_nil_r.
  - cbn [run_completes forallb] in C. apply andb_true_iff in C.
    destruct C as (Ci & C).
    destruct item as [e | c | query | e]; cbn [live_loop calls_of live_lines].
    + unfold bind. rewrite render_event_eq.
      set (w1 := mkWorld (store w) (writes w) (commits w)
                         (stdout w ++ event_lines current_agent e)).
      destruct (IH (next_agent current_agent e) w1 C R) as (a & w' & E & S & O).
      exists a, w'. split; [exact E|]. split.
      * rewrite S. now apply run_calls_store_only.
      * rewrite O. subst w1. cbn [stdout]. now rewrite <- app_assoc.
    + destruct (run_call_confirms c w R) as (E1 & R1).
      destruct (run_call_console c w) as (O1 & _).
      remember (snd (run_call c w)) as w1 eqn:W1.
      destruct (IH current_agent w1 C R1) as (a & w' & E & S & O).
      exists a, w'. unfold bind. rewrite E1. split; [exact E|]. split.
      * rewrite S. rewrite run_calls_step. rewrite E1.
        now destruct (run_calls (calls_of rest) w1) as [[rs|e] w2].
      * rewrite O, O1. now rewrite <- app_assoc.
    + unfold bind. rewrite search_web_eq.
      destruct (acomplete (search_prompt query)) as [response|e];
        [|discriminate].
      set (w1 := mkWorld (store w) (writes w) (commits w)
                         (stdout w ++ [search_line query])).
      destruct (IH current_agent w1 C R) as (a & w' & E & S & O).
      exists a, w'. split; [exact E|]. split.
      * rewrite S. now apply run_calls_store_only.
      * rewrite O. subst w1. cbn [stdout]. now rewrite <- app_assoc.
    + discriminate.
Qed.

(** In a run none of whose model calls fails, [run_workflow] returns.  The
    store ends as the tools of the run, in the order the runner executed
    them, made the initial state; its report and its review are texts; and
    the console gets the lines of the loop and of the tools in the order of
    the run, then the closing lines with that report and that review. *)
Theorem run_workflow_prints_report_and_review (run : list RunItem) (w : World) :
  run_completes run = true ->
  exists report review,
    state_field (snd (run_workflow run w)) "report_content" = Ok (VStr report) /\
    state_field (snd (run_workflow run w)) "review" = Ok (VStr review) /\
    fst (run_workflow run w) = Ok tt /\
    store (snd (run_workflow run w))
      = store (snd (run_calls (calls_of run) (run_start agent_workflow))) /\
    stdout (snd (run_workflow run w))
      = (stdout w ++ live_lines None run
           ++ [(nl ++ "--- ✅ Workflow Complete ---")%string;
               (nl ++ "--- Final Report Content ---" ++ nl)%string;
               report;
               (nl ++ "----------------------------" ++ nl)%string;
               (nl ++ "--- Final Review ---" ++ nl)%string;
               review])%list.
Proof.
  intros C.
  set (w0 := mkWorld (store (run_start agent_workflow)) [] [] (stdout w)).
  assert (R0 : notes_ready w0 = true) by reflexivity.
  destruct (live_loop_eq run None w0 C R0) as (a & w1 & E & S & O).
  assert (S1 : store w1
               = store (snd (run_calls (calls_of run) (run_start agent_workflow)))).
  { rewrite S. now apply run_calls_store_only. }
  destruct (reached_fields_text _
              (reached_run_calls (calls_of run) _ (reached_start agent_workflow)))
    as (report & review & Hr & Hv).
  assert (Hr1 : state_field w1 "report_content" = Ok (VStr report))
    by (unfold state_field in *; now rewrite S1).
  assert (Hv1 : state_field w1 "review" = Ok (VStr review))
    by (unfold state_field in *; now rewrite S1).
  assert (W : run_workflow run w =
              (Ok tt,
               mkWorld (store w1) (writes w1) (commits w1)
                       (stdout w1 ++ closing_lines (VStr report) (VStr review)))).
  { unfold run_workflow, bind at 1. unfold start_run. fold w0.
    unfold bind. rewrite E.
    exact (closing_section_eq w1 (VStr report) (VStr review) Hr1 Hv1). }
  exists report, review. rewrite W. cbn [fst snd store stdout].
  unfold state_field in *. cbn [store].
  split; [exact Hr1|]. split; [exact Hv1|]. split; [reflexivity|].
  split; [exact S1|].
  rewrite O. subst w0. cbn [stdout closing_lines py_str].
  now rewrite <- app_assoc.
Qed.

(** *** Agent output in the stream of a run *)

Lemma follows_runner_at (pre post : list Event) (e : Event) :
  forall current_agent : option string,
    follows_runner current_agent (pre ++ e :: post) = true ->
    match e with
    | AgentOutput _ _ n => differs n (last_agent current_agent pre) = false
    | _ => True
    end.
Proof.
  induction pre as [|x pre IH]; intros current_agent H.
  - cbn [app follows_runner last_agent] in *.
    apply andb_true_iff in H. destruct H as (H & _).
    destruct e; try exact I. now apply negb_true_iff in H.
  - cbn [app follows_runner last_agent] in *.
    apply andb_true_iff in H. destruct H as (_ & H).
    now apply IH.
Qed.

(** C6. In the stream of a run, every agent-output event is shown when it
    arrives, whatever the tools have printed or written by then: the loop
    prints its text when that is not empty, and the names of its planned
    tools when there are any; these lines, and no banner, are what the event
    adds to the console. *)
Theorem agent_output_shown_in_stream
        (pre post : list Event) (response_content : option string)
        (tool_calls : list ToolSelection) (n : string) :
  follows_runner None (pre ++ AgentOutput response_content tool_calls n :: post)
    = true ->
  (forall w : World,
     renders_agent_output (last_agent None pre)
       (AgentOutput response_content tool_calls n) w /\
     printed_by (render_event (last_agent None pre)
                   (AgentOutput response_content tool_calls n)) w
       = agent_output_lines response_content tool_calls) /\
  (forall w : World,
     stdout (snd (render_events None
                    (pre ++ AgentOutput response_content tool_calls n :: post) w))
       = (stdout w ++ stream_lines None pre
            ++ agent_output_lines response_content tool_calls
            ++ stream_lines (Some n) post)%list).
Proof.
  intros H.
  pose proof (follows_runner_at pre post
                (AgentOutput response_content tool_calls n) None H) as D.
  cbn beta iota in D.
  split; intros w.
  - destruct (agent_output_shown_for_tracked_agent (last_agent None pre)
                response_content tool_calls n w) as (Shown & _).
    destruct (Shown D) as (_ & P & Rn). now split.
  - rewrite render_events_eq. cbn [snd stdout].
    rewrite stream_lines_app. cbn [stream_lines]. unfold event_lines at 1.
    cbn [agent_name_of body_lines]. rewrite D.
    unfold next_agent. cbn [agent_name_of].
    reflexivity.
Qed.

End Console.

(* ===================================================================== *)
(** ** The loop, the tools and the run on concrete inputs *)
(* ===================================================================== *)

(** Below, [repr()] is applied to plain names only, for which it is the name
    in single quotes, and the model answers every search. *)

Lemma agent_output_shown_in_stream_witness :
  stdout (snd (render_events (fun s => "'" ++ s ++ "'") None
                 [AgentInput "ResearchAgent";
                  AgentOutput (Some "Hello")
                              [mkSelection "call_1" "search_web" []]
                              "ResearchAgent";
                  ToolCall "search_web" [("query", VStr "ux")]]
                 (run_start agent_workflow)))
  = [banner "ResearchAgent";
     (output_label ++ " Hello")%string;
     (planning_label ++ " ['search_web']")%string;
     "🔨 Calling Tool: search_web";
     "    With arguments: {'query': 'ux'}"].
Proof.
  exact (proj2 (agent_output_shown_in_stream (fun s => "'" ++ s ++ "'")
           [AgentInput "ResearchAgent"]
           [ToolCall "search_web" [("query", VStr "ux")]]
           (Some "Hello") [mkSelection "call_1" "search_web" []]
           "ResearchAgent" eq_refl) (run_start agent_workflow)).
Defined.

(** A tool output that is not text (a list) is shown through [str()]. *)
Example tool_result_of_a_list :
  printed_by (render_event (fun s => "'" ++ s ++ "'") (Some "ResearchAgent")
                (ToolCallResult "search_web" [("query", VStr "ux")]
                                (VList [VInt 1; VNone; VStr "ab"])))
             (run_start agent_workflow)
  = ["🔧 Tool Result (search_web):"; "    Output: [1, None, 'ab']..."].
Proof. reflexivity. Qed.

(** A text of 301 characters is shown by its first 300, a text of 3 in
    full, and the dots follow in both cases. *)
Example tool_result_of_a_long_text :
  printed_by (render_event (fun s => s) None
                (ToolCallResult "search_web" []
                                (VStr (repeat_char "a"%char 301))))
             (run_start agent_workflow)
  = ["🔧 Tool Result (search_web):";
     ("    Output: " ++ repeat_char "a"%char 300 ++ "...")%string] /\
  printed_by (render_event (fun s => s) None
                (ToolCallResult "search_web" [] (VStr "abc")))
             (run_start agent_workflow)
  = ["🔧 Tool Result (search_web):"; "    Output: abc..."].
Proof. split; vm_compute; reflexivity. Qed.

(** Characters of several bytes count once each: a hundred robots are shown
    in full, and of three hundred and one the first three hundred. *)
Example tool_result_of_many_robots :
  py_len (String.concat "" (repeat "🤖" 100)) = 100 /\
  printed_by (render_event (fun s => s) None
                (ToolCallResult "search_web" []
                                (VStr (String.concat "" (repeat "🤖" 100)))))
             (run_start agent_workflow)
  = ["🔧 Tool Result (search_web):";
     ("    Output: " ++ String.concat "" (repeat "🤖" 100) ++ "...")%string] /\
  printed_by (render_event (fun s => s) None
                (ToolCallResult "search_web" []
                                (VStr (String.concat "" (repeat "🤖" 301)))))
             (run_start agent_workflow)
  = ["🔧 Tool Result (search_web):";
     ("    Output: " ++ String.concat "" (repeat "🤖" 300) ++ "...")%string].
Proof. repeat split; vm_compute; reflexivity. Qed.

(** One search and one note by the research agent, as in the run the script
    starts: the note is in the store when the agent is done. *)
Example note_recorded_before_handoff :
  note_at (snd (record_notes "Notes" "UX best practices"
                  (run_start agent_workflow)))
          "UX best practices"
  = Ok (VStr "Notes").
Proof. reflexivity. Qed.

(** On a state whose ["research_notes"] is a text, [record_notes] raises
    [TypeError] and the state stays as it was. *)
Example record_notes_on_a_text :
  record_notes "Notes" "t"
    (mkWorld (VDict [("state", VDict [("research_notes", VStr "oops")])]) [] [] [])
  = (Raise TypeError,
     mkWorld (VDict [("state", VDict [("research_notes", VStr "oops")])]) []
             [VDict [("state", VDict [("research_notes", VStr "oops")])]]
             ["--- Recording notes titled: 't' ---"]).
Proof. reflexivity. Qed.


Lemma handoff_calls_are_hidden_witness :
  printed_by (render_event (fun s => s) (Some "ResearchAgent")
                (ToolCall "handoff" [("to_agent", VStr "WriteAgent")]))
             (run_start agent_workflow)
  = [].
Proof.
  apply (proj1 (proj2 (handoff_calls_are_hidden (fun s => s)
                         (Some "ResearchAgent") "handoff"
                         [("to_agent", VStr "WriteAgent")]
                         (run_start agent_workflow)))).
  exists "", "". reflexivity.
Defined.

Lemma tool_result_line_bounds_witness :
  exists header line,
    printed_by (render_event (fun s => s) None
                  (ToolCallResult "search_web" [] (VStr "abc")))
               (run_start agent_workflow) = [header; line] /\
    line = "    Output: abc...".
Proof.
  destruct (tool_result_line_bounds (fun s => s) None "search_web" []
              (VStr "abc") (run_start agent_workflow))
    as (header & line & P & _ & _ & Short & _).
  exists header, line. split; [exact P|].
  apply Short. vm_compute. lia.
Defined.

Lemma banner_marks_agent_change_witness :
  printed_by (render_event (fun s => s) (Some "ResearchAgent")
                (AgentInput "WriteAgent"))
             (run_start agent_workflow)
  = [banner "WriteAgent"].
Proof.
  exact (proj2 (banner_marks_agent_change (fun s => s) (Some "ResearchAgent")
                  (AgentInput "WriteAgent") (run_start agent_workflow)
                  "WriteAgent") eq_refl eq_refl).
Defined.

Lemma closing_section_raises_on_missing_field_witness :
  fst (render_and_close (fun s => s) []
         (mkWorld (VDict [("state", VDict [("research_notes", VDict [])])])
                  [] [] []))
  = Raise (KeyError "report_content").
Proof.
  rewrite (proj1 (closing_section_raises_on_missing_field (fun s => s) []
             (mkWorld (VDict [("state", VDict [("research_notes", VDict [])])])
                      [] [] [])
             (VDict [("research_notes", VDict [])])
             (KeyError "report_content") eq_refl) eq_refl).
  reflexivity.
Defined.

(** A run in which the research agent searches and records a note while the
    loop renders its events, and the write agent writes the report. *)
Lemma run_workflow_prints_report_and_review_witness :
  exists report review,
    state_field
      (snd (run_workflow (fun s => "'" ++ s ++ "'")
              (fun _ => Ok (VObj "Found it." "CompletionResponse()"))
              [Emit (AgentInput "ResearchAgent");
               Search "ux";
               Exec (CallRecordNotes "Notes" "UX");
               Emit (AgentInput "WriteAgent");
               Exec (CallWriteReport "# PRD")]
              (mkWorld VNone [] [] [])))
      "report_content" = Ok (VStr report) /\
    report = "# PRD" /\
    review = "Review required." /\
    stdout
      (snd (run_workflow (fun s => "'" ++ s ++ "'")
              (fun _ => Ok (VObj "Found it." "CompletionResponse()"))
              [Emit (AgentInput "ResearchAgent");
               Search "ux";
               Exec (CallRecordNotes "Notes" "UX");
               Emit (AgentInput "WriteAgent");
               Exec (CallWriteReport "# PRD")]
              (mkWorld VNone [] [] [])))
    = [banner "ResearchAgent";
       "--- Performing web search for: 'ux' ---";
       "--- Recording notes titled: 'UX' ---";
       banner "WriteAgent";
       "--- Writing report ---";
       (nl ++ "--- ✅ Workflow Complete ---")%string;
       (nl ++ "--- Final Report Content ---" ++ nl)%string;
       report;
       (nl ++ "----------------------------" ++ nl)%string;
       (nl ++ "--- Final Review ---" ++ nl)%string;
       review].
Proof.
  destruct (run_workflow_prints_report_and_review (fun s => "'" ++ s ++ "'")
              (fun _ => Ok (VObj "Found it." "CompletionResponse()"))
              [Emit (AgentInput "ResearchAgent");
               Search "ux";
               Exec (CallRecordNotes "Notes" "UX");
               Emit (AgentInput "WriteAgent");
               Exec (CallWriteReport "# PRD")]
              (mkWorld VNone [] [] []) eq_refl)
    as (report & review & Hr & Hv & _ & _ & O).
  exists report, review.
  assert (Er : report = "# PRD").
  { vm_compute in Hr. now inversion Hr. }
  assert (Ev : review = "Review required.").
  { vm_compute in Hv. now inversion Hv. }
  split; [exact Hr|]. split; [exact Er|]. split; [exact Ev|].
  rewrite O. reflexivity.
Defined.
